(** * The [At] reconciler of cnat-kubebuilder

    A shallow embedding of
    [cnat-kubebuilder/internal/controller/at_controller.go]: the
    [Reconcile] method of [AtReconciler] with its two helpers
    [newPodForCR] and [timeUntilSchedule], followed by the properties of
    the PENDING -> RUNNING -> DONE state machine.

    The controller talks to the cluster through the [client.Client]
    interface of controller-runtime; that interface is a type class here,
    and every call the reconciler makes is recorded in a trace, so that
    "performs no status write" or "creates the pod once" are statements
    about the trace. *)

From Stdlib Require Import ZArith Ascii String List Bool Lia.
From stdpp Require Import gmap strings.

Local Open Scope string_scope.
Local Open Scope list_scope.
Local Open Scope Z_scope.

(** ** Library types the controller uses *)

(** [strings.Split(s, sep)] for a separator of one byte, which is how the
    controller calls it ([" "]): every occurrence of the separator ends a
    field, so [n] separators give [n + 1] fields, empty ones included. *)
Module strings.

Fixpoint Split (s : string) (sep : ascii) : list string :=
  match s with
  | EmptyString => [EmptyString]
  | String c rest =>
      if Ascii.eqb c sep then EmptyString :: Split rest sep
      else match Split rest sep with
           | field :: fields => String c field :: fields
           | [] => [String c EmptyString]
           end
  end.

(** [strings.Join(elems, sep)] *)
Fixpoint Join (elems : list string) (sep : string) : string :=
  match elems with
  | [] => EmptyString
  | [a] => a
  | a :: rest => a +:+ sep +:+ Join rest sep
  end.

End strings.

Module metav1.

Record OwnerReference := {
  RefKind : string;
  RefName : string;
  Controller : bool;
}.

Record ObjectMeta := {
  Name : string;
  Namespace : string;
  Labels : gmap string string;
  OwnerReferences : list OwnerReference;
}.

End metav1.

Module types.

Record NamespacedName := {
  Namespace : string;
  Name : string;
}.

End types.

Module corev1.

(** [corev1.PodPhase] and [corev1.RestartPolicy] are string types. *)
Definition PodPending := "Pending".
Definition PodRunning := "Running".
Definition PodSucceeded := "Succeeded".
Definition PodFailed := "Failed".
Definition RestartPolicyOnFailure := "OnFailure".

Record Container := {
  Name : string;
  Image : string;
  Command : list string;
}.

Record PodSpec := {
  Containers : list Container;
  RestartPolicy : string;
}.

Record PodStatus := {
  Phase : string;
  Reason : string;
  Message : string;
}.

Record Pod := {
  ObjectMeta : metav1.ObjectMeta;
  Spec : PodSpec;
  Status : PodStatus;
}.

(** [pod.OwnerReferences = refs] *)
Definition setOwnerReferences (pod : Pod) (refs : list metav1.OwnerReference) : Pod :=
  {| ObjectMeta :=
       {| metav1.Name := metav1.Name (ObjectMeta pod);
          metav1.Namespace := metav1.Namespace (ObjectMeta pod);
          metav1.Labels := metav1.Labels (ObjectMeta pod);
          metav1.OwnerReferences := refs |};
     Spec := Spec pod;
     Status := Status pod |}.

End corev1.

Module cnatv1alpha1.

(** Modelled from the spec: the phase constants of [api/v1alpha1], whose
    file is not among the sources. The spec gives [status.phase] the
    values [""] (unset), [PENDING], [RUNNING] and [DONE]. *)
Definition PhasePending := "PENDING".
Definition PhaseRunning := "RUNNING".
Definition PhaseDone := "DONE".

Record AtSpec := {
  Schedule : string;
  Command : string;
}.

Record AtStatus := {
  Phase : string;
}.

Record At := {
  ObjectMeta : metav1.ObjectMeta;
  Spec : AtSpec;
  Status : AtStatus;
}.

(** [instance.Status.Phase = p] *)
Definition setPhase (cr : At) (p : string) : At :=
  {| ObjectMeta := ObjectMeta cr; Spec := Spec cr; Status := {| Phase := p |} |}.

End cnatv1alpha1.

(** ** [newPodForCR] *)

(** The zero values Go gives to the fields a composite literal leaves out. *)
Definition zeroPodStatus : corev1.PodStatus :=
  {| corev1.Phase := ""; corev1.Reason := ""; corev1.Message := "" |}.

Definition newPodForCR (cr : cnatv1alpha1.At) : corev1.Pod :=
  let name := metav1.Name (cnatv1alpha1.ObjectMeta cr) in
  let labels : gmap string string := {[ "app" := name ]} in
  {| corev1.ObjectMeta :=
       {| metav1.Name := name +:+ "-pod";
          metav1.Namespace := metav1.Namespace (cnatv1alpha1.ObjectMeta cr);
          metav1.Labels := labels;
          metav1.OwnerReferences := [] |};
     corev1.Spec :=
       {| corev1.Containers :=
            [ {| corev1.Name := "busybox";
                 corev1.Image := "busybox";
                 corev1.Command :=
                   strings.Split (cnatv1alpha1.Command (cnatv1alpha1.Spec cr)) " " |} ];
          corev1.RestartPolicy := corev1.RestartPolicyOnFailure |};
     corev1.Status := zeroPodStatus |}.

(** ** Errors *)

(** Go's [error] values, as far as the controller tells them apart: the
    API errors of [k8s.io/apimachinery/pkg/api/errors], which carry a
    status reason, the [*time.ParseError] of [time.Parse], and the rest. *)
Inductive error :=
| StatusError (reason : string) (message : string)
| ParseError (layout value : string)
| OtherError (message : string).

Module errors.

Definition StatusReasonNotFound := "NotFound".
Definition StatusReasonAlreadyExists := "AlreadyExists".
Definition StatusReasonConflict := "Conflict".

Definition IsNotFound (err : error) : bool :=
  match err with
  | StatusError reason _ => String.eqb reason StatusReasonNotFound
  | _ => false
  end.

Definition NewNotFound (name : string) : error :=
  StatusError StatusReasonNotFound name.

Definition NewAlreadyExists (name : string) : error :=
  StatusError StatusReasonAlreadyExists name.

End errors.

(** ** Time *)

Module time.

(** An instant, in nanoseconds since the Unix epoch (UTC). *)
Definition Time := Z.

(** [time.Duration] is an [int64] count of nanoseconds. *)
Definition Duration := Z.
Definition minDuration : Duration := - 2 ^ 63.
Definition maxDuration : Duration := 2 ^ 63 - 1.
Definition Second : Duration := 1000000000.
Definition Minute : Duration := 60 * Second.

(** [t.Sub(u)]: the duration [t - u]; when it does not fit a [Duration]
    the maximum (or minimum) duration is returned. *)
Definition Sub (t u : Time) : Duration :=
  let d := t - u in
  if d >? maxDuration then maxDuration
  else if d <? minDuration then minDuration
  else d.

(** *** A parser for the layout the controller uses

    [Parse] follows [time.Parse] for the one layout
    ["2006-01-02T15:04:05Z"]: four digits of year, two of month and of
    day, one or two of hour (the layout element [15] is not of fixed
    width), two of minute and of second, an optional fraction of a
    second that the layout does not name, and the letter [Z]; the day
    is checked against the month once everything is read. The result
    is in UTC. Any other layout is answered with an error. *)

Definition isDigit (c : ascii) : bool :=
  let n := Z.of_nat (nat_of_ascii c) in (48 <=? n) && (n <=? 57).

Definition digitVal (c : ascii) : Z := Z.of_nat (nat_of_ascii c) - 48.

(** [getnum(s, fixed)] *)
Definition getnum (s : string) (fixed : bool) : option (Z * string) :=
  match s with
  | String a rest =>
      if isDigit a then
        match rest with
        | String b rest' =>
            if isDigit b then Some (digitVal a * 10 + digitVal b, rest')
            else if fixed then None else Some (digitVal a, rest)
        | EmptyString => if fixed then None else Some (digitVal a, rest)
        end
      else None
  | EmptyString => None
  end.

(** The longest run of digits at the head of [s], read as a number of
    which at most [limit] digits count. *)
Fixpoint leadingDigits (s : string) (limit : nat) (acc : Z) : Z * nat * string :=
  match s with
  | String c rest =>
      if isDigit c then
        match limit with
        | O => leadingDigits rest O acc
        | S limit' =>
            let '(v, used, tail) := leadingDigits rest limit' (acc * 10 + digitVal c) in
            (v, S used, tail)
        end
      else (acc, O, s)
  | EmptyString => (acc, O, s)
  end.

Definition longYear (s : string) : option (Z * string) :=
  match s with
  | String a (String b (String c (String d rest))) =>
      if isDigit a && isDigit b && isDigit c && isDigit d
      then Some (((digitVal a * 10 + digitVal b) * 10 + digitVal c) * 10 + digitVal d, rest)
      else None
  | _ => None
  end.

(** [skip(value, prefix)] for a literal of one byte. *)
Definition skip (s : string) (lit : ascii) : option string :=
  match s with
  | String c rest => if Ascii.eqb c lit then Some rest else None
  | EmptyString => None
  end.

Definition commaOrPeriod (c : ascii) : bool :=
  Ascii.eqb c "." || Ascii.eqb c ",".

(** The fraction of a second after the seconds, in nanoseconds: read
    when a period or comma is followed by a digit; nine digits count. *)
Definition fraction (s : string) : Z * string :=
  match s with
  | String p (String d rest) =>
      if commaOrPeriod p && isDigit d then
        let '(v, used, tail) := leadingDigits (String d rest) 9 0 in
        (v * 10 ^ Z.of_nat (9 - used), tail)
      else (0, s)
  | _ => (0, s)
  end.

Definition isLeap (year : Z) : bool :=
  (year mod 4 =? 0) && (negb (year mod 100 =? 0) || (year mod 400 =? 0)).

Definition daysIn (month year : Z) : Z :=
  if month =? 2 then (if isLeap year then 29 else 28)
  else if (month =? 4) || (month =? 6) || (month =? 9) || (month =? 11) then 30
  else 31.

(** Days from 1970-01-01 to the given day of the proleptic Gregorian
    calendar. *)
Definition daysSinceEpoch (year month day : Z) : Z :=
  let y := if month <=? 2 then year - 1 else year in
  let era := y / 400 in
  let yoe := y - era * 400 in
  let mp := if month >? 2 then month - 3 else month + 9 in
  let doy := (153 * mp + 2) / 5 + day - 1 in
  let doe := yoe * 365 + yoe / 4 - yoe / 100 + doy in
  era * 146097 + doe - 719468.

(** [time.Date(year, month, day, hour, min, sec, nsec, time.UTC)] *)
Definition Date (year month day hour min sec nsec : Z) : Time :=
  (((daysSinceEpoch year month day * 24 + hour) * 60 + min) * 60 + sec) * Second + nsec.

Definition layoutSchedule := "2006-01-02T15:04:05Z".

Definition parseSchedule (value : string) : option Time :=
  '(year, value) ← longYear value;
  value ← skip value "-";
  '(month, value) ← getnum value true;
  guard (1 <= month <= 12);;
  value ← skip value "-";
  '(day, value) ← getnum value true;
  value ← skip value "T";
  '(hour, value) ← getnum value false;
  guard (hour < 24);;
  value ← skip value ":";
  '(min, value) ← getnum value true;
  guard (min < 60);;
  value ← skip value ":";
  '(sec, value) ← getnum value true;
  guard (sec < 60);;
  let '(nsec, value) := fraction value in
  value ← skip value "Z";
  guard (value = "");;
  guard (1 <= day <= daysIn month year);;
  Some (Date year month day hour min sec nsec).

Definition Parse (layout value : string) : error + Time :=
  if String.eqb layout layoutSchedule then
    match parseSchedule value with
    | Some t => inr t
    | None => inl (ParseError layout value)
    end
  else inl (ParseError layout value).

End time.

(** ** The controller-runtime interfaces *)

Module reconcile.

(** [reconcile.Result]; [Result{}] is the zero value. *)
Record Result := {
  Requeue : bool;
  RequeueAfter : time.Duration;
}.

Definition empty : Result := {| Requeue := false; RequeueAfter := 0 |}.

Definition after (d : time.Duration) : Result :=
  {| Requeue := false; RequeueAfter := d |}.

(** [reconcile.Request] *)
Record Request := {
  NamespacedName : types.NamespacedName;
}.

End reconcile.

(** What the reconciler asks of the cluster, in the order it asks. *)
Inductive Call :=
| GetAt (key : types.NamespacedName)
| GetPod (key : types.NamespacedName)
| CreatePod (pod : corev1.Pod)
| StatusUpdate (obj : cnatv1alpha1.At).

Definition isGetPod (c : Call) : bool :=
  match c with GetPod _ => true | _ => false end.
Definition isCreatePod (c : Call) : bool :=
  match c with CreatePod _ => true | _ => false end.
Definition isStatusUpdate (c : Call) : bool :=
  match c with StatusUpdate _ => true | _ => false end.
Definition isPodCall (c : Call) : bool := isGetPod c || isCreatePod c.
Definition isWrite (c : Call) : bool := isCreatePod c || isStatusUpdate c.

(** The phases a trace hands to the status writer. *)
Definition persistedPhases (calls : list Call) : list string :=
  flat_map (fun c => match c with
                     | StatusUpdate obj => [cnatv1alpha1.Phase (cnatv1alpha1.Status obj)]
                     | _ => []
                     end) calls.

(** [client.Client], over a type [W] of cluster states. The two reads
    answer with the object or an error and leave the cluster as it is;
    the two writes answer with [nil] or an error and the cluster that
    results. *)
Class Client (W : Type) := {
  GetAtObject : types.NamespacedName -> W -> error + cnatv1alpha1.At;
  GetPodObject : types.NamespacedName -> W -> error + corev1.Pod;
  Create : corev1.Pod -> W -> option error * W;
  StatusUpdateObject : cnatv1alpha1.At -> W -> option error * W;
}.

(** ** The reconciler *)

Section Controller.

Context {W : Type} `{!Client W}.

(** [time.Parse], [*runtime.Scheme] and the owner references of
    [controllerutil] come from libraries. *)
Variable Parse : string -> string -> error + time.Time.
Variable runtimeScheme : Type.
Variable controllerReference :
  cnatv1alpha1.At -> corev1.Pod -> runtimeScheme -> error + list metav1.OwnerReference.

(** [controllerutil.SetControllerReference(owner, controlled, scheme)]
    writes [controlled.OwnerReferences] and nothing else, or fails;
    [controllerReference] is the list it writes. *)
Definition SetControllerReference (owner : cnatv1alpha1.At) (controlled : corev1.Pod)
  (s : runtimeScheme) : error + corev1.Pod :=
  match controllerReference owner controlled s with
  | inl err => inl err
  | inr refs => inr (corev1.setOwnerReferences controlled refs)
  end.

Record AtReconciler := {
  Scheme : runtimeScheme;
}.

(** [timeUntilSchedule], with the reading of the clock as an argument. *)
Definition timeUntilSchedule (now : time.Time) (schedule : string)
  : time.Duration * option error :=
  let layout := "2006-01-02T15:04:05Z" in
  match Parse layout schedule with
  | inl err => (0, Some err)
  | inr s => (time.Sub s now, None)
  end.

(** *** Running a method body

    A run carries the cluster, the trace of the calls made so far and
    the object [instance] points to. A statement either goes on with a
    value or has executed a [return]. *)
Record Exec := {
  cluster : W;
  trace : list Call;
  instance : cnatv1alpha1.At;
}.

Inductive Flow (A : Type) :=
| Continue (a : A)
| Returned (res : reconcile.Result) (err : option error).
Arguments Continue {A} a.
Arguments Returned {A} res err.

Definition M (A : Type) := Exec -> Flow A * Exec.

Definition pure {A} (a : A) : M A := fun s => (Continue a, s).

Definition bind {A B} (m : M A) (k : A -> M B) : M B :=
  fun s => match m s with
           | (Continue a, s') => k a s'
           | (Returned res err, s') => (Returned res err, s')
           end.

Definition return_ {A} (res : reconcile.Result) (err : option error) : M A :=
  fun s => (Returned res err, s).

Notation "x <- m ;; k" := (bind m (fun x => k))
  (at level 100, m at next level, right associativity).
Notation "m ;; k" := (bind m (fun _ => k))
  (at level 100, right associativity).

Definition skip : M unit := pure tt.

Definition logged (c : Call) (s : Exec) : Exec :=
  {| cluster := cluster s; trace := trace s ++ [c]; instance := instance s |}.

(** [r.Get(ctx, key, instance)] *)
Definition Get_instance (key : types.NamespacedName) : M (option error) :=
  fun s =>
    let s := logged (GetAt key) s in
    match GetAtObject key (cluster s) with
    | inl err => (Continue (Some err), s)
    | inr obj =>
        (Continue None, {| cluster := cluster s; trace := trace s; instance := obj |})
    end.

(** [found := &corev1.Pod{}; err = r.Get(ctx, nsName, found)] *)
Definition Get_found (key : types.NamespacedName) : M (error + corev1.Pod) :=
  fun s =>
    let s := logged (GetPod key) s in
    (Continue (GetPodObject key (cluster s)), s).

(** [r.Create(ctx, pod)] *)
Definition Create_pod (pod : corev1.Pod) : M (option error) :=
  fun s =>
    let s := logged (CreatePod pod) s in
    let '(err, w) := Create pod (cluster s) in
    (Continue err, {| cluster := w; trace := trace s; instance := instance s |}).

(** [r.Status().Update(ctx, instance)] *)
Definition Status_Update : M (option error) :=
  fun s =>
    let s := logged (StatusUpdate (instance s)) s in
    let '(err, w) := StatusUpdateObject (instance s) (cluster s) in
    (Continue err, {| cluster := w; trace := trace s; instance := instance s |}).

(** Reading [*instance] and assigning [instance.Status.Phase]. *)
Definition load : M cnatv1alpha1.At := fun s => (Continue (instance s), s).

Definition Phase : M string :=
  fun s => (Continue (cnatv1alpha1.Phase (cnatv1alpha1.Status (instance s))), s).

Definition assignPhase (p : string) : M unit :=
  fun s => (Continue tt, {| cluster := cluster s; trace := trace s;
                            instance := cnatv1alpha1.setPhase (instance s) p |}).

(** *** [Reconcile] *)

(** The [switch] on the phase: it either returns from [Reconcile] or
    leaves the switch, after which the status is written. *)
Definition phaseSwitch (r : AtReconciler) (now : time.Time) : M unit :=
  phase <- Phase ;;
  if String.eqb phase cnatv1alpha1.PhasePending then
    cr <- load ;;
    let '(d, err) := timeUntilSchedule now (cnatv1alpha1.Schedule (cnatv1alpha1.Spec cr)) in
    match err with
    | Some err => return_ reconcile.empty (Some err)
    | None =>
        if d >? 0 then return_ (reconcile.after d) None
        else assignPhase cnatv1alpha1.PhaseRunning
    end
  else if String.eqb phase cnatv1alpha1.PhaseRunning then
    cr <- load ;;
    let pod := newPodForCR cr in
    match SetControllerReference cr pod (Scheme r) with
    | inl err => return_ reconcile.empty (Some err)
    | inr pod =>
        let nsName := {| types.Name := metav1.Name (corev1.ObjectMeta pod);
                         types.Namespace := metav1.Namespace (corev1.ObjectMeta pod) |} in
        found <- Get_found nsName ;;
        match found with
        | inl err =>
            if errors.IsNotFound err then
              err <- Create_pod pod ;;
              match err with
              | Some err => return_ reconcile.empty (Some err)
              | None => skip
              end
            else return_ reconcile.empty (Some err)
        | inr found =>
            let podPhase := corev1.Phase (corev1.Status found) in
            if String.eqb podPhase corev1.PodFailed
               || String.eqb podPhase corev1.PodSucceeded
            then assignPhase cnatv1alpha1.PhaseDone
            else return_ reconcile.empty None
        end
    end
  else if String.eqb phase cnatv1alpha1.PhaseDone then
    return_ reconcile.empty None
  else
    return_ reconcile.empty None.

Definition ReconcileBody (r : AtReconciler) (now : time.Time)
  (req : reconcile.Request) : M Empty_set :=
  err <- Get_instance (reconcile.NamespacedName req) ;;
  match err with
  | Some err =>
      if errors.IsNotFound err then return_ reconcile.empty None
      else return_ reconcile.empty (Some err)
  | None =>
      phase <- Phase ;;
      (if String.eqb phase "" then assignPhase cnatv1alpha1.PhasePending else skip) ;;
      phaseSwitch r now ;;
      err <- Status_Update ;;
      match err with
      | Some err => return_ reconcile.empty (Some err)
      | None => return_ reconcile.empty None
      end
  end.

(** What a call of [Reconcile] leaves behind: the two values it
    returns, the cluster, the calls it made and the object [instance]
    pointed to when it returned. *)
Record Outcome := {
  result : reconcile.Result;
  failure : option error;
  final : Exec;
}.

Definition zeroAt : cnatv1alpha1.At :=
  {| cnatv1alpha1.ObjectMeta :=
       {| metav1.Name := ""; metav1.Namespace := "";
          metav1.Labels := ∅; metav1.OwnerReferences := [] |};
     cnatv1alpha1.Spec := {| cnatv1alpha1.Schedule := ""; cnatv1alpha1.Command := "" |};
     cnatv1alpha1.Status := {| cnatv1alpha1.Phase := "" |} |}.

Definition Reconcile (r : AtReconciler) (now : time.Time)
  (req : reconcile.Request) (w : W) : Outcome :=
  match ReconcileBody r now req {| cluster := w; trace := []; instance := zeroAt |} with
  | (Returned res err, s) => {| result := res; failure := err; final := s |}
  | (Continue impossible, _) => match impossible with end
  end.

End Controller.

Arguments Continue {A} a.
Arguments Returned {A} res err.
Arguments Reconcile {W _} Parse {runtimeScheme} controllerReference r now req w.
Arguments ReconcileBody {W _} Parse {runtimeScheme} controllerReference r now req.
Arguments phaseSwitch {W _} Parse {runtimeScheme} controllerReference r now.
Arguments SetControllerReference {runtimeScheme} controllerReference owner controlled s.
Arguments Scheme {runtimeScheme} a.
Arguments logged {W} c s.
Arguments Outcome {W}.
Arguments Exec {W}.
Arguments result {W}.
Arguments failure {W}.
Arguments final {W}.
Arguments cluster {W}.
Arguments trace {W}.
Arguments instance {W}.

(** ** An in-memory cluster *)

(** Modelled from the spec: the resource store behind the client, which
    is not part of the sources. Section 6 of the spec gives its
    contract: [Get] answers with the object or NotFound, [Create] with
    ok, AlreadyExists or an error, the status update with the resource
    or an error, and only the [status] of the stored object is written.
    Each kind of call can be made to fail with a given error. *)
Module fake.

Record Faults := {
  onGetAt : option error;
  onGetPod : option error;
  onCreate : option error;
  onStatusUpdate : option error;
}.

Definition noFaults : Faults :=
  {| onGetAt := None; onGetPod := None; onCreate := None; onStatusUpdate := None |}.

Record Cluster := {
  ats : gmap (string * string) cnatv1alpha1.At;
  pods : gmap (string * string) corev1.Pod;
  faults : Faults;
}.

Definition keyOf (key : types.NamespacedName) : string * string :=
  (types.Namespace key, types.Name key).

Definition metaKey (m : metav1.ObjectMeta) : string * string :=
  (metav1.Namespace m, metav1.Name m).

Definition getAt (key : types.NamespacedName) (c : Cluster) : error + cnatv1alpha1.At :=
  match onGetAt (faults c) with
  | Some err => inl err
  | None =>
      match ats c !! keyOf key with
      | Some obj => inr obj
      | None => inl (errors.NewNotFound (types.Name key))
      end
  end.

Definition getPod (key : types.NamespacedName) (c : Cluster) : error + corev1.Pod :=
  match onGetPod (faults c) with
  | Some err => inl err
  | None =>
      match pods c !! keyOf key with
      | Some obj => inr obj
      | None => inl (errors.NewNotFound (types.Name key))
      end
  end.

Definition create (pod : corev1.Pod) (c : Cluster) : option error * Cluster :=
  match onCreate (faults c) with
  | Some err => (Some err, c)
  | None =>
      let k := metaKey (corev1.ObjectMeta pod) in
      match pods c !! k with
      | Some _ => (Some (errors.NewAlreadyExists (snd k)), c)
      | None => (None, {| ats := ats c; pods := <[k := pod]> (pods c); faults := faults c |})
      end
  end.

Definition statusUpdate (obj : cnatv1alpha1.At) (c : Cluster) : option error * Cluster :=
  match onStatusUpdate (faults c) with
  | Some err => (Some err, c)
  | None =>
      let k := metaKey (cnatv1alpha1.ObjectMeta obj) in
      match ats c !! k with
      | Some stored =>
          let stored' :=
            {| cnatv1alpha1.ObjectMeta := cnatv1alpha1.ObjectMeta stored;
               cnatv1alpha1.Spec := cnatv1alpha1.Spec stored;
               cnatv1alpha1.Status := cnatv1alpha1.Status obj |} in
          (None, {| ats := <[k := stored']> (ats c); pods := pods c; faults := faults c |})
      | None => (Some (errors.NewNotFound (snd k)), c)
      end
  end.

#[global] Instance client : Client Cluster := {|
  GetAtObject := getAt;
  GetPodObject := getPod;
  Create := create;
  StatusUpdateObject := statusUpdate;
|}.

(** A scheme is the list of the kinds registered with it. The owner
    reference of a pod is set when the owner's kind is registered, both
    live in one namespace and no other controller owns the pod. *)
Definition Registry := list string.

Definition refTo (owner : cnatv1alpha1.At) : metav1.OwnerReference :=
  {| metav1.RefKind := "At";
     metav1.RefName := metav1.Name (cnatv1alpha1.ObjectMeta owner);
     metav1.Controller := true |}.

Definition sameOwner (a b : metav1.OwnerReference) : bool :=
  String.eqb (metav1.RefKind a) (metav1.RefKind b)
  && String.eqb (metav1.RefName a) (metav1.RefName b).

Definition controllerReference (owner : cnatv1alpha1.At) (pod : corev1.Pod)
  (s : Registry) : error + list metav1.OwnerReference :=
  let ref := refTo owner in
  let refs := metav1.OwnerReferences (corev1.ObjectMeta pod) in
  if negb (existsb (String.eqb "At") s) then
    inl (OtherError "no kind is registered for the type v1alpha1.At")
  else if negb (String.eqb (metav1.Namespace (cnatv1alpha1.ObjectMeta owner))
                           (metav1.Namespace (corev1.ObjectMeta pod))) then
    inl (OtherError "cross-namespace owner references are disallowed")
  else if existsb (fun r => metav1.Controller r && negb (sameOwner r ref)) refs then
    inl (OtherError "Object is already owned by another controller")
  else inr (List.filter (fun r => negb (sameOwner r ref)) refs ++ [ref]).

Definition reconciler : AtReconciler Registry := {| Scheme := ["At"] |}.

(** The reconciler on this cluster, with the parser of [time]. *)
Abbreviation Reconcile :=
  (Reconcile (W := Cluster) time.Parse controllerReference reconciler).

End fake.

(** ** A resource to run the reconciler on *)

(** The resource [default/demo] with the command [echo YAY], its pod, and
    clusters that hold them; the clock reads 2026-11-03T00:00:00Z. *)
Module scenario.

Definition now : time.Time := time.Date 2026 11 3 0 0 0 0.

Definition request : reconcile.Request :=
  {| reconcile.NamespacedName := {| types.Namespace := "default"; types.Name := "demo" |} |}.

Definition resource (phase schedule : string) : cnatv1alpha1.At :=
  {| cnatv1alpha1.ObjectMeta :=
       {| metav1.Name := "demo"; metav1.Namespace := "default";
          metav1.Labels := ∅; metav1.OwnerReferences := [] |};
     cnatv1alpha1.Spec :=
       {| cnatv1alpha1.Schedule := schedule; cnatv1alpha1.Command := "echo YAY" |};
     cnatv1alpha1.Status := {| cnatv1alpha1.Phase := phase |} |}.

(** The pod of the resource as the cluster reports it in a given phase. *)
Definition pod (cr : cnatv1alpha1.At) (podPhase : string) : corev1.Pod :=
  let p := corev1.setOwnerReferences (newPodForCR cr) [fake.refTo cr] in
  {| corev1.ObjectMeta := corev1.ObjectMeta p;
     corev1.Spec := corev1.Spec p;
     corev1.Status := {| corev1.Phase := podPhase; corev1.Reason := "";
                         corev1.Message := "" |} |}.

Definition holding (crs : list cnatv1alpha1.At) (ps : list corev1.Pod) : fake.Cluster :=
  {| fake.ats :=
       list_to_map (map (fun cr => (fake.metaKey (cnatv1alpha1.ObjectMeta cr), cr)) crs);
     fake.pods :=
       list_to_map (map (fun p => (fake.metaKey (corev1.ObjectMeta p), p)) ps);
     fake.faults := fake.noFaults |}.

Definition past := "2019-07-03T02:00:00Z".
Definition inFiveMinutes := "2026-11-03T00:05:00Z".
Definition farFuture := "9999-12-31T23:59:59Z".
Definition malformed := "not-a-date".

(** The clusters of the examples: nothing stored; the resource alone,
    in a phase and with a schedule; the resource RUNNING with its pod. *)
Definition empty : fake.Cluster := holding [] [].

Definition alone (phase schedule : string) : fake.Cluster :=
  holding [resource phase schedule] [].

Definition withPod (podPhase : string) : fake.Cluster :=
  holding [resource cnatv1alpha1.PhaseRunning past]
          [pod (resource cnatv1alpha1.PhaseRunning past) podPhase].

Definition key : types.NamespacedName := reconcile.NamespacedName request.

(** The cluster [c] answering every status update with a conflict. *)
Definition conflict : error :=
  StatusError errors.StatusReasonConflict "the object has been modified".

Definition conflicting (c : fake.Cluster) : fake.Cluster :=
  {| fake.ats := fake.ats c; fake.pods := fake.pods c;
     fake.faults :=
       {| fake.onGetAt := None; fake.onGetPod := None; fake.onCreate := None;
          fake.onStatusUpdate := Some conflict |} |}.

End scenario.

(** ** Vocabulary of the properties *)

Abbreviation phaseOf cr := (cnatv1alpha1.Phase (cnatv1alpha1.Status cr)).
Abbreviation scheduleOf cr := (cnatv1alpha1.Schedule (cnatv1alpha1.Spec cr)).
Abbreviation nameOf cr := (metav1.Name (cnatv1alpha1.ObjectMeta cr)).
Abbreviation namespaceOf cr := (metav1.Namespace (cnatv1alpha1.ObjectMeta cr)).
Abbreviation podPhaseOf pod := (corev1.Phase (corev1.Status pod)).

Definition layout := "2006-01-02T15:04:05Z".

(** The phase is unset or PENDING. *)
Definition awaiting (cr : cnatv1alpha1.At) : Prop :=
  phaseOf cr = "" \/ phaseOf cr = cnatv1alpha1.PhasePending.

(** The object after the defaulting of an unset phase. *)
Definition defaulted (cr : cnatv1alpha1.At) : cnatv1alpha1.At :=
  if String.eqb (phaseOf cr) "" then cnatv1alpha1.setPhase cr cnatv1alpha1.PhasePending
  else cr.

(** The key under which the pod of [cr] is looked up. *)
Definition derivedKey (cr : cnatv1alpha1.At) : types.NamespacedName :=
  {| types.Namespace := namespaceOf cr; types.Name := nameOf cr +:+ "-pod" |}.

(** The pod has terminated. *)
Definition terminal (pod : corev1.Pod) : bool :=
  String.eqb (podPhaseOf pod) corev1.PodFailed
  || String.eqb (podPhaseOf pod) corev1.PodSucceeded.

(** The order of the phases, and what it means to come earlier in it. *)
Definition phaseOrder : list string :=
  [""; cnatv1alpha1.PhasePending; cnatv1alpha1.PhaseRunning; cnatv1alpha1.PhaseDone].

Fixpoint indexOf (p : string) (l : list string) : option nat :=
  match l with
  | [] => None
  | q :: l' => if String.eqb p q then Some O else option_map S (indexOf p l')
  end.

Definition rank (p : string) : option nat := indexOf p phaseOrder.

Definition earlier (p q : string) : Prop :=
  exists i j, rank p = Some i /\ rank q = Some j /\ (i < j)%nat.

(** [q] is [p] or a later phase of the order. *)
Definition forward (p q : string) : Prop := q = p \/ earlier p q.

(** The three shapes of what [Reconcile] returns. *)
Inductive Shape : reconcile.Result -> option error -> Prop :=
| Success : Shape reconcile.empty None
| TransientFailure (e : error) : Shape reconcile.empty (Some e)
| FollowUp (d : time.Duration) : 0 < d -> Shape (reconcile.after d) None.

(** An outcome, written out. *)
Definition outcome {W : Type} (res : reconcile.Result) (e : option error) (w : W)
  (calls : list Call) (cr : cnatv1alpha1.At) : Outcome :=
  {| result := res; failure := e;
     final := {| cluster := w; trace := calls; instance := cr |} |}.

(** The run [s] after [instance.Status.Phase = p]. *)
Definition withPhase {W : Type} (s : Exec (W := W)) (p : string) : Exec :=
  {| cluster := cluster s; trace := trace s;
     instance := cnatv1alpha1.setPhase (instance s) p |}.

(** One reconcile after the other for the same request, each at its own
    reading of the clock and on the cluster the one before left. *)
Fixpoint reconcileAll {W : Type} `{!Client W} {runtimeScheme : Type}
  (Parse : string -> string -> error + time.Time)
  (controllerReference :
     cnatv1alpha1.At -> corev1.Pod -> runtimeScheme -> error + list metav1.OwnerReference)
  (r : AtReconciler runtimeScheme) (req : reconcile.Request)
  (nows : list time.Time) (w : W) : list Outcome :=
  match nows with
  | [] => []
  | now :: nows' =>
      let o := Reconcile Parse controllerReference r now req w in
      o :: reconcileAll Parse controllerReference r req nows' (cluster (final o))
  end.

(** How often the byte [c] occurs in [s]. *)
Fixpoint countByte (c : ascii) (s : string) : nat :=
  match s with
  | EmptyString => O
  | String a rest => (if Ascii.eqb a c then 1 else 0) + countByte c rest
  end.

(** The calls of a trace come in the order read, pod lookup, create,
    status update, each at most once, and a pod is created under the key
    it was looked up with. *)
Definition podKey (pod : corev1.Pod) : types.NamespacedName :=
  {| types.Namespace := metav1.Namespace (corev1.ObjectMeta pod);
     types.Name := metav1.Name (corev1.ObjectMeta pod) |}.

Inductive PodCalls : list Call -> Prop :=
| NoPodCall : PodCalls []
| Looked (k : types.NamespacedName) : PodCalls [GetPod k]
| LookedAndCreated (pod : corev1.Pod) : PodCalls [GetPod (podKey pod); CreatePod pod].

Inductive StatusCalls : list Call -> Prop :=
| NoStatusCall : StatusCalls []
| Written (obj : cnatv1alpha1.At) : StatusCalls [StatusUpdate obj].

Definition ordered (key : types.NamespacedName) (calls : list Call) : Prop :=
  exists podCalls statusCalls,
    calls = GetAt key :: podCalls ++ statusCalls
    /\ PodCalls podCalls /\ StatusCalls statusCalls.

(** ** The pod lister of [main.go] *)

(** [int32] arithmetic wraps around. *)
Definition int32 (z : Z) : Z := (z + 2 ^ 31) mod 2 ^ 32 - 2 ^ 31.
Definition minInt32 : Z := - 2 ^ 31.
Definition maxInt32 : Z := 2 ^ 31 - 1.

(** [d.Truncate(m)]: [d] rounded toward zero to a multiple of [m], and
    [d] itself when [m] is not positive. Go's [%] truncates, as [Z.rem]. *)
Definition Truncate (d m : time.Duration) : time.Duration :=
  if m <=? 0 then d else d - Z.rem d m.

(** The fields of [k8s.io/api/core/v1] that [main.go] reads. *)
Module v1.

Record ContainerStatus := {
  RestartCount : Z;
}.

Record PodSpec := {
  NodeName : string;
}.

Record PodStatus := {
  Phase : string;
  PodIP : string;
  ContainerStatuses : list ContainerStatus;
}.

Record Pod := {
  Name : string;
  Namespace : string;
  CreationTimestamp : time.Time;
  Spec : PodSpec;
  Status : PodStatus;
}.

End v1.

(** The package [main] of [main.go]. *)
Module main.

Record PodInfo := {
  Name : string;
  Namespace : string;
  NodeName : string;
  Phase : string;
  PodIP : string;
  Restarts : Z;
  Age : time.Duration;
  CreatedAt : time.Time;
}.

(** [getTotalRestarts]: the loop adds in [int32]. *)
Definition getTotalRestarts (containerStatuses : list v1.ContainerStatus) : Z :=
  fold_left (fun total cs => int32 (total + v1.RestartCount cs)) containerStatuses 0.

Definition extractPodInfo (pod : v1.Pod) (now : time.Time) : PodInfo :=
  {| Name := v1.Name pod;
     Namespace := v1.Namespace pod;
     NodeName := v1.NodeName (v1.Spec pod);
     Phase := v1.Phase (v1.Status pod);
     PodIP := v1.PodIP (v1.Status pod);
     Restarts := getTotalRestarts (v1.ContainerStatuses (v1.Status pod));
     Age := Truncate (time.Sub now (v1.CreationTimestamp pod)) time.Second;
     CreatedAt := v1.CreationTimestamp pod |}.

End main.

(** The restart counts of a list of container statuses, and their sum
    in the integers. *)
Definition restartCounts (l : list v1.ContainerStatus) : list Z :=
  map v1.RestartCount l.

Definition sumZ (l : list Z) : Z := fold_right Z.add 0 l.

(** Clusters whose calls fail, a reconciler whose scheme knows no kind,
    and pods as the lister sees them. *)
Module cases.

Definition refused : error := OtherError "connection refused".

Definition failing (f : fake.Faults) (c : fake.Cluster) : fake.Cluster :=
  {| fake.ats := fake.ats c; fake.pods := fake.pods c; fake.faults := f |}.

Definition readFails : fake.Faults :=
  {| fake.onGetAt := Some refused; fake.onGetPod := None;
     fake.onCreate := None; fake.onStatusUpdate := None |}.

Definition lookupFails : fake.Faults :=
  {| fake.onGetAt := None; fake.onGetPod := Some refused;
     fake.onCreate := None; fake.onStatusUpdate := None |}.

Definition createFails : fake.Faults :=
  {| fake.onGetAt := None; fake.onGetPod := None;
     fake.onCreate := Some refused; fake.onStatusUpdate := None |}.

Definition unregistered : AtReconciler fake.Registry := {| Scheme := [] |}.

Definition running : cnatv1alpha1.At :=
  scenario.resource cnatv1alpha1.PhaseRunning scenario.past.

Definition ownedPod : corev1.Pod :=
  corev1.setOwnerReferences (newPodForCR running) [fake.refTo running].

Definition noParser (layout value : string) : error + time.Time :=
  inl (ParseError layout value).

Definition statuses (counts : list Z) : list v1.ContainerStatus :=
  map (fun n => {| v1.RestartCount := n |}) counts.

End cases.

(** Splitting loses nothing: there is always a first field, and joining
    the fields with the separator gives the string back. *)
Lemma Split_not_nil s sep : strings.Split s sep <> [].
Proof.
  destruct s as [| c rest]; cbn; [discriminate |].
  destruct (Ascii.eqb c sep); [discriminate |].
  destruct (strings.Split rest sep); discriminate.
Qed.

Lemma Join_Split s sep :
  strings.Join (strings.Split s sep) (String sep EmptyString) = s.
Proof.
  induction s as [| c rest IH]; [reflexivity |].
  cbn [strings.Split]. pose proof (Split_not_nil rest sep) as Hne.
  destruct (Ascii.eqb_spec c sep) as [-> | Hc];
    destruct (strings.Split rest sep) as [| field fields]; try contradiction.
  - change (String sep (strings.Join (field :: fields) (String sep EmptyString))
            = String sep rest).
    rewrite IH. reflexivity.
  - destruct fields as [| field' fields]; cbn in IH |- *; rewrite <- IH; reflexivity.
Qed.

Example Split_command : strings.Split "echo  YAY" " " = ["echo"; ""; "YAY"].
Proof. reflexivity. Qed.

Example Parse_examples :
  time.Parse layout "1970-01-01T00:00:00Z" = inr 0
  /\ time.Parse layout "2019-07-03T02:00:00Z" = inr (1562119200 * time.Second)
  /\ time.Parse layout "2019-07-03T2:00:00.5Z" = inr (1562119200 * time.Second + 500000000)
  /\ time.Parse layout "2019-02-29T02:00:00Z" = inl (ParseError layout "2019-02-29T02:00:00Z")
  /\ time.Parse layout "2019-07-03 02:00:00" = inl (ParseError layout "2019-07-03 02:00:00").
Proof. repeat split; vm_compute; reflexivity. Qed.

Lemma forward_not_earlier p q : forward p q -> ~ earlier q p.
Proof.
  intros [-> | (i & j & Hi & Hj & Hlt)] (i' & j' & Hi' & Hj' & Hlt').
  - rewrite Hi' in Hj'. injection Hj' as ->. lia.
  - rewrite Hi in Hj'. rewrite Hj in Hi'.
    injection Hj' as ->. injection Hi' as ->. lia.
Qed.

Lemma awaiting_defaulted cr :
  awaiting cr -> phaseOf (defaulted cr) = cnatv1alpha1.PhasePending.
Proof. unfold defaulted. intros [H | H]; rewrite H; cbn; [reflexivity | exact H]. Qed.

Lemma Sub_pos t u : 0 < time.Sub t u <-> u < t.
Proof.
  unfold time.Sub, time.maxDuration, time.minDuration.
  destruct (Z.gtb_spec (t - u) (2 ^ 63 - 1)); [lia |].
  destruct (Z.ltb_spec (t - u) (- 2 ^ 63)); lia.
Qed.

Lemma Sub_exact t u :
  time.minDuration <= t - u <= time.maxDuration -> time.Sub t u = t - u.
Proof.
  unfold time.Sub. intros [Hlo Hhi].
  destruct (Z.gtb_spec (t - u) time.maxDuration); [lia |].
  destruct (Z.ltb_spec (t - u) time.minDuration); [lia | reflexivity].
Qed.

Lemma Sub_saturates t u :
  time.maxDuration < t - u -> time.Sub t u = time.maxDuration.
Proof.
  unfold time.Sub. intros H.
  destruct (Z.gtb_spec (t - u) time.maxDuration); [reflexivity | lia].
Qed.

(** ** The paths through [Reconcile] *)

Section Paths.

Context {W : Type} `{!Client W}.
Variable Parse : string -> string -> error + time.Time.
Variable runtimeScheme : Type.
Variable controllerReference :
  cnatv1alpha1.At -> corev1.Pod -> runtimeScheme -> error + list metav1.OwnerReference.
Variables (r : AtReconciler runtimeScheme) (now : time.Time) (req : reconcile.Request) (w : W).

Local Abbreviation key := (reconcile.NamespacedName req).
Local Abbreviation run := (Reconcile Parse controllerReference r now req w).

Ltac enter :=
  unfold Reconcile, ReconcileBody, bind, Get_instance, outcome; cbn.
Ltac switch :=
  unfold phaseSwitch, bind, Phase, load, timeUntilSchedule, SetControllerReference,
    Get_found, Create_pod, Status_Update, assignPhase, skip, pure, return_; cbn.

Lemma path_read_failed e :
  GetAtObject key w = inl e ->
  run = outcome reconcile.empty (if errors.IsNotFound e then None else Some e)
          w [GetAt key] zeroAt.
Proof. intros Hget. enter. rewrite Hget. destruct (errors.IsNotFound e); reflexivity. Qed.

(** After a successful read the phase is defaulted and the switch is
    entered with the defaulted object. *)
Lemma enter_switch cr :
  GetAtObject key w = inr cr ->
  run =
    match phaseSwitch Parse controllerReference r now
            {| cluster := w; trace := [GetAt key]; instance := defaulted cr |} with
    | (Continue _, s) =>
        let '(e, w') := StatusUpdateObject (instance s) (cluster s) in
        outcome reconcile.empty e w' (trace s ++ [StatusUpdate (instance s)]) (instance s)
    | (Returned res e, s) => {| result := res; failure := e; final := s |}
    end.
Proof.
  intros Hget. unfold Reconcile, ReconcileBody, bind, Get_instance, outcome.
  cbn -[phaseSwitch]. rewrite Hget.
  unfold defaulted, Phase, assignPhase, skip, pure. cbn -[phaseSwitch].
  destruct (String.eqb (phaseOf cr) ""); cbn -[phaseSwitch];
    (match goal with |- context [phaseSwitch ?a ?b ?c ?d ?s] =>
       destruct (phaseSwitch a b c d s) as [[u | res e] s'] end);
    cbn; try reflexivity;
    unfold Status_Update; cbn;
    destruct (StatusUpdateObject (instance s') (cluster s')) as [[e|] w']; reflexivity.
Qed.

(** The four arms of the switch, on a run [s] whose object is [cr]. *)
Section Switch.

Variable s : Exec (W := W).
Local Abbreviation cr := (instance s).
Local Abbreviation switch_s := (phaseSwitch Parse controllerReference r now s).

Lemma switch_pending :
  phaseOf cr = cnatv1alpha1.PhasePending ->
  switch_s =
    match Parse layout (scheduleOf cr) with
    | inl e => (Returned reconcile.empty (Some e), s)
    | inr t =>
        if time.Sub t now >? 0
        then (Returned (reconcile.after (time.Sub t now)) None, s)
        else (Continue tt, withPhase s cnatv1alpha1.PhaseRunning)
    end.
Proof.
  intros Hp. switch. rewrite Hp. cbn. unfold layout.
  destruct (Parse _ _) as [e | t]; cbn; [reflexivity |].
  destruct (time.Sub t now >? 0); reflexivity.
Qed.

Lemma switch_running :
  phaseOf cr = cnatv1alpha1.PhaseRunning ->
  switch_s =
    match controllerReference cr (newPodForCR cr) (Scheme r) with
    | inl e => (Returned reconcile.empty (Some e), s)
    | inr refs =>
        let pod := corev1.setOwnerReferences (newPodForCR cr) refs in
        let s1 := logged (GetPod (derivedKey cr)) s in
        match GetPodObject (derivedKey cr) (cluster s) with
        | inl e =>
            if errors.IsNotFound e then
              let '(e', w') := Create pod (cluster s) in
              let s2 := {| cluster := w'; trace := trace s1 ++ [CreatePod pod];
                           instance := cr |} in
              match e' with
              | Some e' => (Returned reconcile.empty (Some e'), s2)
              | None => (Continue tt, s2)
              end
            else (Returned reconcile.empty (Some e), s1)
        | inr found =>
            if terminal found
            then (Continue tt, withPhase s1 cnatv1alpha1.PhaseDone)
            else (Returned reconcile.empty None, s1)
        end
    end.
Proof.
  intros Hp. switch. rewrite Hp. cbn.
  destruct (controllerReference _ _ _) as [e | refs]; cbn; [reflexivity |].
  unfold derivedKey, logged. cbn.
  destruct (GetPodObject _ _) as [e | found]; cbn.
  - destruct (errors.IsNotFound e); cbn; [| reflexivity].
    destruct (Create _ _) as [[e' |] w']; reflexivity.
  - unfold terminal. destruct (_ || _); reflexivity.
Qed.

Lemma switch_done :
  phaseOf cr = cnatv1alpha1.PhaseDone ->
  switch_s = (Returned reconcile.empty None, s).
Proof. intros Hp. switch. rewrite Hp. reflexivity. Qed.

Lemma switch_other :
  phaseOf cr <> cnatv1alpha1.PhasePending ->
  phaseOf cr <> cnatv1alpha1.PhaseRunning ->
  switch_s = (Returned reconcile.empty None, s).
Proof.
  intros Hp Hr. switch.
  destruct (String.eqb_spec (phaseOf cr) cnatv1alpha1.PhasePending); [contradiction |].
  destruct (String.eqb_spec (phaseOf cr) cnatv1alpha1.PhaseRunning); [contradiction |].
  destruct (String.eqb (phaseOf cr) cnatv1alpha1.PhaseDone); reflexivity.
Qed.

End Switch.

End Paths.

(** ** Properties of one call of [Reconcile] *)

Section Properties.

Context {W : Type} `{!Client W}.
Variable Parse : string -> string -> error + time.Time.
Variable runtimeScheme : Type.
Variable controllerReference :
  cnatv1alpha1.At -> corev1.Pod -> runtimeScheme -> error + list metav1.OwnerReference.
Variables (r : AtReconciler runtimeScheme) (req : reconcile.Request).

Local Abbreviation key := (reconcile.NamespacedName req).
Local Abbreviation run := (Reconcile Parse controllerReference r).

Lemma run_awaiting now w cr :
  GetAtObject key w = inr cr -> awaiting cr ->
  run now req w =
    match Parse layout (scheduleOf cr) with
    | inl e => outcome reconcile.empty (Some e) w [GetAt key] (defaulted cr)
    | inr t =>
        if time.Sub t now >? 0
        then outcome (reconcile.after (time.Sub t now)) None w [GetAt key] (defaulted cr)
        else
          let cr' := cnatv1alpha1.setPhase (defaulted cr) cnatv1alpha1.PhaseRunning in
          let '(e, w') := StatusUpdateObject cr' w in
          outcome reconcile.empty e w' [GetAt key; StatusUpdate cr'] cr'
      end.
Proof.
  intros Hget Hp. rewrite enter_switch with (cr := cr) by assumption.
  rewrite switch_pending by (cbn; apply awaiting_defaulted, Hp). cbn.
  replace (scheduleOf (defaulted cr)) with (scheduleOf cr)
    by (unfold defaulted; destruct (String.eqb _ _); reflexivity).
  destruct (Parse _ _) as [e | t]; [reflexivity |].
  destruct (time.Sub t now >? 0); reflexivity.
Qed.

Lemma defaulted_id cr : phaseOf cr <> "" -> defaulted cr = cr.
Proof.
  intros Hp. unfold defaulted.
  destruct (String.eqb_spec (phaseOf cr) ""); [contradiction | reflexivity].
Qed.

Lemma run_running now w cr :
  GetAtObject key w = inr cr -> phaseOf cr = cnatv1alpha1.PhaseRunning ->
  run now req w =
    match controllerReference cr (newPodForCR cr) (Scheme r) with
    | inl e => outcome reconcile.empty (Some e) w [GetAt key] cr
    | inr refs =>
        let pod := corev1.setOwnerReferences (newPodForCR cr) refs in
        let dk := derivedKey cr in
        match GetPodObject dk w with
        | inl e =>
            if errors.IsNotFound e then
              let '(e1, w1) := Create pod w in
              match e1 with
              | Some e1 =>
                  outcome reconcile.empty (Some e1) w1 [GetAt key; GetPod dk; CreatePod pod] cr
              | None =>
                  let '(e2, w2) := StatusUpdateObject cr w1 in
                  outcome reconcile.empty e2 w2
                    [GetAt key; GetPod dk; CreatePod pod; StatusUpdate cr] cr
              end
            else outcome reconcile.empty (Some e) w [GetAt key; GetPod dk] cr
        | inr found =>
            if terminal found then
              let cr' := cnatv1alpha1.setPhase cr cnatv1alpha1.PhaseDone in
              let '(e, w') := StatusUpdateObject cr' w in
              outcome reconcile.empty e w' [GetAt key; GetPod dk; StatusUpdate cr'] cr'
            else outcome reconcile.empty None w [GetAt key; GetPod dk] cr
        end
    end.
Proof.
  intros Hget Hp. rewrite enter_switch with (cr := cr) by assumption.
  rewrite defaulted_id by (rewrite Hp; discriminate).
  rewrite switch_running by exact Hp. cbn.
  destruct (controllerReference _ _ _) as [e | refs]; [reflexivity |].
  destruct (GetPodObject _ _) as [e | found].
  - destruct (errors.IsNotFound e); [| reflexivity].
    destruct (Create _ _) as [[e1 |] w1]; reflexivity.
  - destruct (terminal found); reflexivity.
Qed.

Lemma run_idle now w cr :
  GetAtObject key w = inr cr ->
  phaseOf cr <> "" ->
  phaseOf cr <> cnatv1alpha1.PhasePending ->
  phaseOf cr <> cnatv1alpha1.PhaseRunning ->
  run now req w = outcome reconcile.empty None w [GetAt key] cr.
Proof.
  intros Hget H0 Hp Hr. rewrite enter_switch with (cr := cr) by assumption.
  rewrite defaulted_id by assumption.
  rewrite switch_other by assumption. reflexivity.
Qed.

(** Every object is in one of the three situations above. *)
Lemma phase_cases cr :
  awaiting cr \/ phaseOf cr = cnatv1alpha1.PhaseRunning
  \/ (phaseOf cr <> "" /\ phaseOf cr <> cnatv1alpha1.PhasePending
      /\ phaseOf cr <> cnatv1alpha1.PhaseRunning).
Proof.
  unfold awaiting.
  destruct (String.eqb_spec (phaseOf cr) ""); [auto |].
  destruct (String.eqb_spec (phaseOf cr) cnatv1alpha1.PhasePending); [auto |].
  destruct (String.eqb_spec (phaseOf cr) cnatv1alpha1.PhaseRunning); auto.
Qed.

Ltac later_phase :=
  right; unfold earlier; do 2 eexists;
  split; [reflexivity | split; [reflexivity | lia]].

(** C1. One call of [Reconcile] moves the phase forward along
    [""], PENDING, RUNNING, DONE or leaves it: neither the phase the
    object in memory has on return nor a phase handed to the status
    writer comes earlier in the order than the phase that was read;
    and when DONE was read the phase stays DONE, nothing is written
    and the cluster is left as it was. *)
Theorem phase_only_moves_forward now w cr :
  GetAtObject key w = inr cr ->
  let o := run now req w in
  (forward (phaseOf cr) (phaseOf (instance (final o)))
   /\ ~ earlier (phaseOf (instance (final o))) (phaseOf cr))
  /\ Forall (fun q => forward (phaseOf cr) q /\ ~ earlier q (phaseOf cr))
       (persistedPhases (trace (final o)))
  /\ (phaseOf cr = cnatv1alpha1.PhaseDone ->
      phaseOf (instance (final o)) = cnatv1alpha1.PhaseDone
      /\ List.filter isWrite (trace (final o)) = []
      /\ cluster (final o) = w).
Proof.
  intros Hget o.
  assert (Hfw : forall q, forward (phaseOf cr) q ->
                          forward (phaseOf cr) q /\ ~ earlier q (phaseOf cr))
    by (intros q Hq; split; [exact Hq | apply forward_not_earlier, Hq]).
  assert (Hstart : awaiting cr -> forward (phaseOf cr) cnatv1alpha1.PhasePending
                                  /\ forward (phaseOf cr) cnatv1alpha1.PhaseRunning).
  { intros [Hp | Hp]; rewrite Hp; split; try later_phase. left; reflexivity. }
  subst o. destruct (phase_cases cr) as [Hp | [Hp | (H0 & Hp & Hr)]].
  - rewrite run_awaiting with (cr := cr) by assumption.
    destruct (Hstart Hp) as [Hpend Hrun].
    assert (Hnd : phaseOf cr <> cnatv1alpha1.PhaseDone)
      by (destruct Hp as [Hp | Hp]; rewrite Hp; discriminate).
    destruct (Parse _ _) as [e | t]; [| destruct (time.Sub t now >? 0)];
      cbv zeta; try destruct (StatusUpdateObject _ _) as [e' w']; cbn;
      rewrite ?(awaiting_defaulted cr Hp);
      (split; [apply Hfw; assumption |]);
      (split; [first [apply List.Forall_nil
                     | apply List.Forall_cons;
                       [apply Hfw; assumption | apply List.Forall_nil]]
              | intros Hd; contradiction]).
  - rewrite run_running with (cr := cr) by assumption.
    assert (Hsame : forward (phaseOf cr) (phaseOf cr)) by (left; reflexivity).
    assert (Hdone : forward (phaseOf cr) cnatv1alpha1.PhaseDone)
      by (rewrite Hp; later_phase).
    assert (Hnd : phaseOf cr <> cnatv1alpha1.PhaseDone) by (rewrite Hp; discriminate).
    cbv zeta.
    destruct (controllerReference _ _ _) as [e | refs];
      [| destruct (GetPodObject _ _) as [e | found];
         [destruct (errors.IsNotFound e);
            [destruct (Create _ _) as [[e1 |] w1];
               [| destruct (StatusUpdateObject _ _) as [e2 w2]] |]
         | destruct (terminal found);
             [destruct (StatusUpdateObject _ _) as [e2 w2] |]]];
      cbn;
      (split; [apply Hfw; assumption |]);
      (split; [first [apply List.Forall_nil
                     | apply List.Forall_cons;
                       [apply Hfw; assumption | apply List.Forall_nil]]
              | intros Hd; contradiction]).
  - rewrite run_idle with (cr := cr) by assumption. cbn.
    split; [apply Hfw; left; reflexivity |].
    split; [constructor | auto].
Qed.

(** C2, amended. With the phase unset or PENDING and a schedule that
    parses to a time after now, [Reconcile] returns a nil error and a
    follow-up after the duration [timeUntilSchedule] computes, which is
    positive; that duration is schedule minus now when the difference
    fits a [time.Duration], and the largest duration when it does not.
    No call but the read is made, so the status is not written. *)
Theorem future_schedule_requeues now w cr t :
  GetAtObject key w = inr cr ->
  awaiting cr ->
  Parse layout (scheduleOf cr) = inr t ->
  now < t ->
  let o := run now req w in
  failure o = None
  /\ result o = reconcile.after (fst (timeUntilSchedule Parse now (scheduleOf cr)))
  /\ 0 < reconcile.RequeueAfter (result o)
  /\ (t - now <= time.maxDuration -> reconcile.RequeueAfter (result o) = t - now)
  /\ (time.maxDuration < t - now -> reconcile.RequeueAfter (result o) = time.maxDuration)
  /\ trace (final o) = [GetAt key]
  /\ cluster (final o) = w.
Proof.
  intros Hget Hp Hparse Hlt o. subst o.
  rewrite run_awaiting with (cr := cr) by assumption.
  unfold timeUntilSchedule. fold layout. rewrite Hparse.
  pose proof (proj2 (Sub_pos t now) Hlt) as Hpos.
  destruct (Z.gtb_spec (time.Sub t now) 0) as [_ | Hle]; [| lia]. cbn.
  repeat split; try assumption.
  - intros Hfit. apply Sub_exact. unfold time.minDuration. lia.
  - apply Sub_saturates.
Qed.

(** C3, amended. With the phase unset or PENDING and a schedule that
    parses to a time at or before now, the first [Reconcile] sets the
    phase to RUNNING and hands it to the status writer; it makes no pod
    call in that pass. The pod is created by a later call: one that
    reads the phase RUNNING, gets the owner reference set and finds no
    pod under the derived key calls [Create]. *)
Theorem overdue_schedule_starts_running now w cr t :
  GetAtObject key w = inr cr ->
  awaiting cr ->
  Parse layout (scheduleOf cr) = inr t ->
  t <= now ->
  let o := run now req w in
  let cr' := cnatv1alpha1.setPhase (defaulted cr) cnatv1alpha1.PhaseRunning in
  (phaseOf (instance (final o)) = cnatv1alpha1.PhaseRunning
   /\ trace (final o) = [GetAt key; StatusUpdate cr']
   /\ List.filter isPodCall (trace (final o)) = []
   /\ result o = reconcile.empty
   /\ failure o = fst (StatusUpdateObject cr' w)
   /\ cluster (final o) = snd (StatusUpdateObject cr' w))
  /\ (forall now' w' cr2 refs e,
        GetAtObject key w' = inr cr2 ->
        phaseOf cr2 = cnatv1alpha1.PhaseRunning ->
        controllerReference cr2 (newPodForCR cr2) (Scheme r) = inr refs ->
        GetPodObject (derivedKey cr2) w' = inl e ->
        errors.IsNotFound e = true ->
        In (CreatePod (corev1.setOwnerReferences (newPodForCR cr2) refs))
           (trace (final (run now' req w')))).
Proof.
  intros Hget Hp Hparse Hle o cr'. subst o cr'. split.
  - rewrite run_awaiting with (cr := cr) by assumption. rewrite Hparse.
    assert (Hnot : ~ 0 < time.Sub t now) by (rewrite Sub_pos; lia).
    destruct (Z.gtb_spec (time.Sub t now) 0) as [Hpos | _]; [contradiction |].
    cbv zeta. destruct (StatusUpdateObject _ _) as [e w']. cbn. repeat split.
  - intros now' w' cr2 refs e Hget2 Hp2 Href Hpod Hnf.
    rewrite run_running with (cr := cr2) by assumption.
    cbv zeta. rewrite Href, Hpod, Hnf.
    destruct (Create _ _) as [[e1 |] w1]; [| destruct (StatusUpdateObject _ _)];
      cbn; auto.
Qed.

(** C4, amended. When the switch has changed the phase (PENDING to
    RUNNING, or RUNNING to DONE), the last call [Reconcile] makes
    before it returns is the status update, with the object that
    carries the new phase. The defaulting of an unset phase to PENDING
    is not such a change. *)
Theorem transition_is_persisted now w cr :
  GetAtObject key w = inr cr ->
  let o := run now req w in
  phaseOf (instance (final o)) <> phaseOf (defaulted cr) ->
  exists calls,
    trace (final o) = calls ++ [StatusUpdate (instance (final o))]
    /\ List.filter isStatusUpdate calls = [].
Proof.
  intros Hget o. subst o.
  destruct (phase_cases cr) as [Hp | [Hp | (H0 & Hp & Hr)]].
  - rewrite run_awaiting with (cr := cr) by assumption.
    destruct (Parse _ _) as [e | t]; [| destruct (time.Sub t now >? 0)];
      cbv zeta; try destruct (StatusUpdateObject _ _) as [e' w']; cbn;
      intros Hch; try contradiction.
    exists [GetAt key]. split; reflexivity.
  - rewrite run_running with (cr := cr) by assumption.
    rewrite defaulted_id by (rewrite Hp; discriminate). cbv zeta.
    destruct (controllerReference _ _ _) as [e | refs];
      [| destruct (GetPodObject _ _) as [e | found];
         [destruct (errors.IsNotFound e);
            [destruct (Create _ _) as [[e1 |] w1];
               [| destruct (StatusUpdateObject _ _) as [e2 w2]] |]
         | destruct (terminal found);
             [destruct (StatusUpdateObject _ _) as [e2 w2] |]]];
      cbn; intros Hch; try contradiction.
    exists [GetAt key; GetPod (derivedKey cr)]. split; reflexivity.
  - rewrite run_idle with (cr := cr) by assumption.
    rewrite defaulted_id by assumption. cbn. intros Hch. contradiction.
Qed.

(** C5. When the read of the resource answers NotFound, [Reconcile]
    returns the empty result and a nil error, has made no call but
    that read, and leaves the cluster as it was. *)
Theorem not_found_is_success now w e :
  GetAtObject key w = inl e ->
  errors.IsNotFound e = true ->
  result (run now req w) = reconcile.empty
  /\ failure (run now req w) = None
  /\ trace (final (run now req w)) = [GetAt key]
  /\ cluster (final (run now req w)) = w.
Proof.
  intros Hget Hnf. rewrite path_read_failed with (e := e) by assumption. rewrite Hnf.
  repeat split.
Qed.

(** C6. With the phase unset or PENDING and a schedule that does not
    parse, every [Reconcile], at whatever times the calls are made,
    returns the parse error with the empty result, makes no call but
    the read, so writes no status, and leaves the cluster as it was. *)
Theorem malformed_schedule_fails now nows w cr e :
  GetAtObject key w = inr cr ->
  awaiting cr ->
  Parse layout (scheduleOf cr) = inl e ->
  Forall (fun o => failure o = Some e
                   /\ result o = reconcile.empty
                   /\ trace (final o) = [GetAt key]
                   /\ List.filter isStatusUpdate (trace (final o)) = []
                   /\ cluster (final o) = w
                   /\ GetAtObject key (cluster (final o)) = inr cr)
         (reconcileAll Parse controllerReference r req (now :: nows) w).
Proof.
  intros Hget Hp Hparse. generalize (now :: nows). clear now nows.
  intros nows. induction nows as [| now nows IH]; cbn [reconcileAll].
  - apply List.Forall_nil.
  - rewrite run_awaiting with (cr := cr) by assumption. rewrite Hparse. cbn.
    apply List.Forall_cons; [repeat split; exact Hget | exact IH].
Qed.

(** C7. A [Reconcile] that reads the phase RUNNING calls [Create]
    exactly when it has asked for the pod under the derived key and the
    answer was NotFound, and it calls [Create] at most once. Hence of
    two such calls in a row, the first of which created the pod and
    the second of which is given the pod by its [Get], exactly one
    [Create] is made in all. A call that is given a pod that has not
    terminated makes no write at all: no create, no update, no status
    write. *)
Theorem create_only_if_absent now w cr :
  GetAtObject key w = inr cr ->
  phaseOf cr = cnatv1alpha1.PhaseRunning ->
  let o := run now req w in
  let dk := derivedKey cr in
  ((exists pod, In (CreatePod pod) (trace (final o)))
   <-> (In (GetPod dk) (trace (final o))
        /\ exists e, GetPodObject dk w = inl e /\ errors.IsNotFound e = true))
  /\ (length (List.filter isCreatePod (trace (final o))) <= 1)%nat
  /\ (forall now2 cr2 refs e found,
        controllerReference cr (newPodForCR cr) (Scheme r) = inr refs ->
        GetPodObject dk w = inl e -> errors.IsNotFound e = true ->
        fst (Create (corev1.setOwnerReferences (newPodForCR cr) refs) w) = None ->
        let o2 := run now2 req (cluster (final o)) in
        GetAtObject key (cluster (final o)) = inr cr2 ->
        phaseOf cr2 = cnatv1alpha1.PhaseRunning ->
        derivedKey cr2 = dk ->
        GetPodObject dk (cluster (final o)) = inr found ->
        length (List.filter isCreatePod (trace (final o) ++ trace (final o2))) = 1%nat)
  /\ (forall refs found,
        controllerReference cr (newPodForCR cr) (Scheme r) = inr refs ->
        GetPodObject dk w = inr found ->
        terminal found = false ->
        trace (final o) = [GetAt key; GetPod dk]
        /\ List.filter isWrite (trace (final o)) = []
        /\ result o = reconcile.empty
        /\ failure o = None
        /\ cluster (final o) = w).
Proof.
  intros Hget Hp o dk. subst o dk.
  rewrite run_running with (cr := cr) by assumption. cbv zeta.
  split; [| split; [| split]].
  - destruct (controllerReference _ _ _) as [e | refs];
      [| destruct (GetPodObject _ _) as [e | found];
         [destruct (errors.IsNotFound e) eqn:Hnf;
            [destruct (Create _ _) as [[e1 |] w1];
               [| destruct (StatusUpdateObject _ _) as [e2 w2]] |]
         | destruct (terminal found);
             [destruct (StatusUpdateObject _ _) as [e2 w2] |]]];
      cbn; (split; [intros [pod Hin] | intros [Hin (e' & Heq & Hnf')]]);
      first [ solve [exfalso; intuition discriminate]
            | solve [exfalso; injection Heq as <-; congruence]
            | solve [split; [auto | exists e; auto]]
            | solve [eexists; eauto 6] ].
  - destruct (controllerReference _ _ _) as [e | refs];
      [| destruct (GetPodObject _ _) as [e | found];
         [destruct (errors.IsNotFound e);
            [destruct (Create _ _) as [[e1 |] w1];
               [| destruct (StatusUpdateObject _ _) as [e2 w2]] |]
         | destruct (terminal found);
             [destruct (StatusUpdateObject _ _) as [e2 w2] |]]];
      cbn; lia.
  - intros now2 cr2 refs e found Href Hpod Hnf Hcreated.
    rewrite Href, Hpod, Hnf.
    destruct (Create _ _) as [[e1 |] w1]; [discriminate Hcreated |].
    destruct (StatusUpdateObject cr w1) as [e2 w2]. cbn [outcome final cluster trace].
    intros Hget2 Hp2 Hdk Hpod2.
    rewrite run_running with (cr := cr2) by assumption.
    cbv zeta. rewrite Hdk, Hpod2.
    destruct (controllerReference cr2 _ _) as [e3 | refs2]; [reflexivity |].
    destruct (terminal found);
      [destruct (StatusUpdateObject _ _) as [e4 w4] |]; reflexivity.
  - intros refs found Href Hpod Hterm. rewrite Href, Hpod, Hterm. cbn. repeat split.
Qed.

(** C8. A [Reconcile] that reads the phase RUNNING and is given a pod
    that has succeeded or failed sets the phase to DONE and hands the
    object with that phase to the status writer in the same call. A
    [Reconcile] that reads the phase DONE returns the empty result and
    a nil error after the read alone: it makes no pod call and leaves
    the cluster as it was. *)
Theorem terminal_pod_means_done now w cr :
  GetAtObject key w = inr cr ->
  let o := run now req w in
  (phaseOf cr = cnatv1alpha1.PhaseRunning ->
   forall refs found,
     controllerReference cr (newPodForCR cr) (Scheme r) = inr refs ->
     GetPodObject (derivedKey cr) w = inr found ->
     podPhaseOf found = corev1.PodSucceeded \/ podPhaseOf found = corev1.PodFailed ->
     let cr' := cnatv1alpha1.setPhase cr cnatv1alpha1.PhaseDone in
     phaseOf (instance (final o)) = cnatv1alpha1.PhaseDone
     /\ trace (final o) = [GetAt key; GetPod (derivedKey cr); StatusUpdate cr']
     /\ persistedPhases (trace (final o)) = [cnatv1alpha1.PhaseDone]
     /\ result o = reconcile.empty
     /\ failure o = fst (StatusUpdateObject cr' w)
     /\ cluster (final o) = snd (StatusUpdateObject cr' w))
  /\ (phaseOf cr = cnatv1alpha1.PhaseDone ->
      result o = reconcile.empty
      /\ failure o = None
      /\ trace (final o) = [GetAt key]
      /\ List.filter isPodCall (trace (final o)) = []
      /\ cluster (final o) = w).
Proof.
  intros Hget o. subst o. split.
  - intros Hp refs found Href Hpod Hterm cr'. subst cr'.
    rewrite run_running with (cr := cr) by assumption. cbv zeta.
    assert (Ht : terminal found = true).
    { unfold terminal. destruct Hterm as [-> | ->]; reflexivity. }
    rewrite Href, Hpod, Ht.
    destruct (StatusUpdateObject _ _) as [e w']. cbn. repeat split.
  - intros Hp. rewrite run_idle with (cr := cr) by (try assumption; rewrite Hp; discriminate).
    cbn. repeat split.
Qed.

(** C10. What [Reconcile] returns has one of three shapes: the empty
    result with a nil error, the empty result with an error, or a
    positive [RequeueAfter] with a nil error; [Requeue] is never set.
    An error never comes with a [RequeueAfter] other than zero, and a
    positive [RequeueAfter] is returned only when the phase read was
    unset or PENDING and the schedule parsed to a time after now. *)
Theorem result_has_one_of_three_shapes now w :
  let o := run now req w in
  Shape (result o) (failure o)
  /\ reconcile.Requeue (result o) = false
  /\ (failure o <> None -> reconcile.RequeueAfter (result o) = 0)
  /\ (0 < reconcile.RequeueAfter (result o) ->
      exists cr t,
        GetAtObject key w = inr cr /\ awaiting cr
        /\ Parse layout (scheduleOf cr) = inr t /\ now < t
        /\ result o = reconcile.after (time.Sub t now)
        /\ failure o = None).
Proof.
  intros o. subst o.
  assert (Hquiet : forall (e : option error) (w' : W) calls cr,
    let o := outcome reconcile.empty e w' calls cr in
    Shape (result o) (failure o)
    /\ reconcile.Requeue (result o) = false
    /\ (failure o <> None -> reconcile.RequeueAfter (result o) = 0)
    /\ (0 < reconcile.RequeueAfter (result o) ->
        exists cr t,
          GetAtObject key w = inr cr /\ awaiting cr
          /\ Parse layout (scheduleOf cr) = inr t /\ now < t
          /\ result o = reconcile.after (time.Sub t now)
          /\ failure o = None)).
  { intros e w' calls cr. cbn. split; [destruct e; constructor |].
    split; [reflexivity |]. split; [reflexivity | lia]. }
  destruct (GetAtObject key w) as [e | cr] eqn:Hget.
  - rewrite path_read_failed with (e := e) by assumption. apply Hquiet.
  - destruct (phase_cases cr) as [Hp | [Hp | (H0 & Hp & Hr)]].
    + rewrite run_awaiting with (cr := cr) by assumption.
      destruct (Parse _ _) as [e | t] eqn:Hparse; [apply Hquiet |].
      destruct (Z.gtb_spec (time.Sub t now) 0) as [Hpos | Hle].
      * cbn. split; [constructor; exact Hpos |].
        split; [reflexivity |]. split; [intros Hne; contradiction |].
        intros _. exists cr, t. rewrite Sub_pos in Hpos. auto 10.
      * cbv zeta. destruct (StatusUpdateObject _ _) as [e w']. apply Hquiet.
    + rewrite run_running with (cr := cr) by assumption. cbv zeta.
      destruct (controllerReference _ _ _) as [e | refs];
        [| destruct (GetPodObject _ _) as [e | found];
           [destruct (errors.IsNotFound e);
              [destruct (Create _ _) as [[e1 |] w1];
                 [| destruct (StatusUpdateObject _ _) as [e2 w2]] |]
           | destruct (terminal found);
               [destruct (StatusUpdateObject _ _) as [e2 w2] |]]];
        apply Hquiet.
    + rewrite run_idle with (cr := cr) by assumption. apply Hquiet.
Qed.

End Properties.

(** ** [newPodForCR] is a function of name, namespace and command *)

(** C9. [newPodForCR] gives the same pod for any two objects with the
    same name, namespace and command, whatever else differs between
    them: its name is the owner's name followed by ["-pod"], its
    namespace the owner's, its labels the single label [app] with the
    owner's name, its one container runs the command split at the spaces,
    and its restart policy is OnFailure. *)
Theorem newPodForCR_deterministic (cr1 cr2 : cnatv1alpha1.At) :
  nameOf cr1 = nameOf cr2 ->
  namespaceOf cr1 = namespaceOf cr2 ->
  cnatv1alpha1.Command (cnatv1alpha1.Spec cr1) = cnatv1alpha1.Command (cnatv1alpha1.Spec cr2) ->
  newPodForCR cr1 = newPodForCR cr2
  /\ metav1.Name (corev1.ObjectMeta (newPodForCR cr1)) = nameOf cr1 +:+ "-pod"
  /\ metav1.Namespace (corev1.ObjectMeta (newPodForCR cr1)) = namespaceOf cr1
  /\ metav1.Labels (corev1.ObjectMeta (newPodForCR cr1)) = {[ "app" := nameOf cr1 ]}
  /\ map corev1.Command (corev1.Containers (corev1.Spec (newPodForCR cr1)))
     = [strings.Split (cnatv1alpha1.Command (cnatv1alpha1.Spec cr1)) " "]
  /\ corev1.RestartPolicy (corev1.Spec (newPodForCR cr1)) = corev1.RestartPolicyOnFailure.
Proof.
  intros Hname Hns Hcmd. unfold newPodForCR. rewrite Hname, Hns, Hcmd.
  repeat split.
Qed.

(** ** The properties on the resource [default/demo] *)

Lemma phase_only_moves_forward_witness :
  GetAtObject scenario.key (scenario.withPod corev1.PodSucceeded)
  = inr (scenario.resource "RUNNING" scenario.past)
  /\ phaseOf (instance (final (fake.Reconcile scenario.now scenario.request
                                 (scenario.withPod corev1.PodSucceeded)))) = "DONE"
  /\ forward "RUNNING"
       (phaseOf (instance (final (fake.Reconcile scenario.now scenario.request
                                    (scenario.withPod corev1.PodSucceeded)))))
  /\ Forall (fun q => forward "RUNNING" q /\ ~ earlier q "RUNNING")
       (persistedPhases
          (trace (final (fake.Reconcile scenario.now scenario.request
                           (scenario.withPod corev1.PodSucceeded))))).
Proof.
  assert (Hget : GetAtObject scenario.key (scenario.withPod corev1.PodSucceeded)
                 = inr (scenario.resource "RUNNING" scenario.past))
    by (vm_compute; reflexivity).
  pose proof (phase_only_moves_forward time.Parse fake.Registry fake.controllerReference
                fake.reconciler scenario.request scenario.now _ _ Hget) as [[Hfw _] [Hall _]].
  split; [exact Hget |]. split; [vm_compute; reflexivity |].
  split; [exact Hfw | exact Hall].
Defined.

Lemma future_schedule_requeues_witness :
  GetAtObject scenario.key (scenario.alone "" scenario.inFiveMinutes)
  = inr (scenario.resource "" scenario.inFiveMinutes)
  /\ awaiting (scenario.resource "" scenario.inFiveMinutes)
  /\ time.Parse layout scenario.inFiveMinutes = inr (time.Date 2026 11 3 0 5 0 0)
  /\ scenario.now < time.Date 2026 11 3 0 5 0 0
  /\ failure (fake.Reconcile scenario.now scenario.request
                (scenario.alone "" scenario.inFiveMinutes)) = None
  /\ reconcile.RequeueAfter
       (result (fake.Reconcile scenario.now scenario.request
                  (scenario.alone "" scenario.inFiveMinutes))) = 5 * time.Minute
  /\ trace (final (fake.Reconcile scenario.now scenario.request
                     (scenario.alone "" scenario.inFiveMinutes)))
     = [GetAt scenario.key].
Proof.
  assert (Hget : GetAtObject scenario.key (scenario.alone "" scenario.inFiveMinutes)
                 = inr (scenario.resource "" scenario.inFiveMinutes))
    by (vm_compute; reflexivity).
  assert (Hp : awaiting (scenario.resource "" scenario.inFiveMinutes))
    by (left; reflexivity).
  assert (Hparse : time.Parse layout scenario.inFiveMinutes
                   = inr (time.Date 2026 11 3 0 5 0 0))
    by (vm_compute; reflexivity).
  assert (Hlt : scenario.now < time.Date 2026 11 3 0 5 0 0) by (vm_compute; reflexivity).
  pose proof (future_schedule_requeues time.Parse fake.Registry fake.controllerReference
                fake.reconciler scenario.request scenario.now _ _ _ Hget Hp Hparse Hlt)
    as (Hnil & _ & _ & Hexact & _ & Htrace & _).
  do 5 (split; [assumption |]).
  split; [| exact Htrace].
  rewrite Hexact; vm_compute; [reflexivity | discriminate].
Defined.

(** A schedule in the year 9999 is more than the largest duration away:
    the follow-up is asked for after that largest duration, which is not
    schedule minus now. *)
Lemma far_future_delay_differs :
  GetAtObject scenario.key (scenario.alone "" scenario.farFuture)
  = inr (scenario.resource "" scenario.farFuture)
  /\ awaiting (scenario.resource "" scenario.farFuture)
  /\ time.Parse layout scenario.farFuture = inr (time.Date 9999 12 31 23 59 59 0)
  /\ scenario.now < time.Date 9999 12 31 23 59 59 0
  /\ reconcile.RequeueAfter
       (result (fake.Reconcile scenario.now scenario.request
                  (scenario.alone "" scenario.farFuture)))
     = time.maxDuration
  /\ reconcile.RequeueAfter
       (result (fake.Reconcile scenario.now scenario.request
                  (scenario.alone "" scenario.farFuture)))
     <> time.Date 9999 12 31 23 59 59 0 - scenario.now.
Proof.
  split; [vm_compute; reflexivity |].
  split; [left; reflexivity |].
  split; [vm_compute; reflexivity |].
  split; [vm_compute; reflexivity |].
  split; [vm_compute; reflexivity |].
  vm_compute. discriminate.
Qed.

Lemma overdue_schedule_starts_running_witness :
  GetAtObject scenario.key (scenario.alone "" scenario.past)
  = inr (scenario.resource "" scenario.past)
  /\ awaiting (scenario.resource "" scenario.past)
  /\ time.Parse layout scenario.past = inr (time.Date 2019 7 3 2 0 0 0)
  /\ time.Date 2019 7 3 2 0 0 0 <= scenario.now
  /\ trace (final (fake.Reconcile scenario.now scenario.request
                     (scenario.alone "" scenario.past)))
     = [GetAt scenario.key; StatusUpdate (scenario.resource "RUNNING" scenario.past)]
  /\ GetAtObject scenario.key
       (cluster (final (fake.Reconcile scenario.now scenario.request
                          (scenario.alone "" scenario.past))))
     = inr (scenario.resource "RUNNING" scenario.past)
  /\ In (CreatePod (scenario.pod (scenario.resource "RUNNING" scenario.past) ""))
        (trace (final (fake.Reconcile scenario.now scenario.request
                         (cluster (final (fake.Reconcile scenario.now scenario.request
                                            (scenario.alone "" scenario.past))))))).
Proof.
  assert (Hget : GetAtObject scenario.key (scenario.alone "" scenario.past)
                 = inr (scenario.resource "" scenario.past))
    by (vm_compute; reflexivity).
  assert (Hp : awaiting (scenario.resource "" scenario.past)) by (left; reflexivity).
  assert (Hparse : time.Parse layout scenario.past = inr (time.Date 2019 7 3 2 0 0 0))
    by (vm_compute; reflexivity).
  assert (Hle : time.Date 2019 7 3 2 0 0 0 <= scenario.now)
    by (vm_compute; discriminate).
  pose proof (overdue_schedule_starts_running time.Parse fake.Registry
                fake.controllerReference fake.reconciler scenario.request scenario.now
                _ _ _ Hget Hp Hparse Hle) as [(_ & Htrace & _) Hnext].
  do 4 (split; [assumption |]).
  split; [exact Htrace |].
  assert (Hget2 : GetAtObject scenario.key
            (cluster (final (fake.Reconcile scenario.now scenario.request
                               (scenario.alone "" scenario.past))))
          = inr (scenario.resource "RUNNING" scenario.past))
    by (vm_compute; reflexivity).
  split; [exact Hget2 |].
  apply (Hnext scenario.now _ _ [fake.refTo (scenario.resource "RUNNING" scenario.past)]
           (errors.NewNotFound "demo-pod") Hget2); vm_compute; reflexivity.
Defined.

(** The resource is due, its kind is registered and no pod stands in the
    way, and yet the first call makes no pod call: it only writes the
    phase RUNNING. *)
Lemma overdue_first_pass_creates_nothing :
  GetAtObject scenario.key (scenario.alone "" scenario.past)
  = inr (scenario.resource "" scenario.past)
  /\ awaiting (scenario.resource "" scenario.past)
  /\ time.Parse layout scenario.past = inr (time.Date 2019 7 3 2 0 0 0)
  /\ time.Date 2019 7 3 2 0 0 0 <= scenario.now
  /\ fake.controllerReference (scenario.resource "RUNNING" scenario.past)
       (newPodForCR (scenario.resource "RUNNING" scenario.past))
       (Scheme fake.reconciler)
     = inr [fake.refTo (scenario.resource "RUNNING" scenario.past)]
  /\ GetPodObject (derivedKey (scenario.resource "RUNNING" scenario.past))
       (scenario.alone "" scenario.past)
     = inl (errors.NewNotFound "demo-pod")
  /\ phaseOf (instance (final (fake.Reconcile scenario.now scenario.request
                                 (scenario.alone "" scenario.past)))) = "RUNNING"
  /\ ~ (exists pod,
          In (CreatePod pod)
             (trace (final (fake.Reconcile scenario.now scenario.request
                              (scenario.alone "" scenario.past))))).
Proof.
  split; [vm_compute; reflexivity |].
  split; [left; reflexivity |].
  split; [vm_compute; reflexivity |].
  split; [vm_compute; discriminate |].
  split; [vm_compute; reflexivity |].
  split; [vm_compute; reflexivity |].
  split; [vm_compute; reflexivity |].
  intros [pod Hin]. vm_compute in Hin.
  destruct Hin as [Hin | [Hin | []]]; discriminate Hin.
Qed.

Lemma transition_is_persisted_witness :
  GetAtObject scenario.key (scenario.withPod corev1.PodFailed)
  = inr (scenario.resource "RUNNING" scenario.past)
  /\ phaseOf (instance (final (fake.Reconcile scenario.now scenario.request
                                 (scenario.withPod corev1.PodFailed))))
     <> phaseOf (defaulted (scenario.resource "RUNNING" scenario.past))
  /\ exists calls,
       trace (final (fake.Reconcile scenario.now scenario.request
                       (scenario.withPod corev1.PodFailed)))
       = calls ++ [StatusUpdate (scenario.resource "DONE" scenario.past)]
       /\ List.filter isStatusUpdate calls = [].
Proof.
  assert (Hget : GetAtObject scenario.key (scenario.withPod corev1.PodFailed)
                 = inr (scenario.resource "RUNNING" scenario.past))
    by (vm_compute; reflexivity).
  assert (Hch : phaseOf (instance (final (fake.Reconcile scenario.now scenario.request
                                            (scenario.withPod corev1.PodFailed))))
                <> phaseOf (defaulted (scenario.resource "RUNNING" scenario.past)))
    by (vm_compute; discriminate).
  split; [exact Hget |]. split; [exact Hch |].
  destruct (transition_is_persisted time.Parse fake.Registry fake.controllerReference
              fake.reconciler scenario.request scenario.now _ _ Hget Hch)
    as (calls & Htrace & Hone).
  exists calls. split; [| exact Hone].
  rewrite Htrace. vm_compute. reflexivity.
Defined.

(** An unset phase is set to PENDING in memory, and when the schedule
    lies ahead the call returns without a status write. *)
Lemma defaulting_is_not_persisted :
  GetAtObject scenario.key (scenario.alone "" scenario.inFiveMinutes)
  = inr (scenario.resource "" scenario.inFiveMinutes)
  /\ phaseOf (scenario.resource "" scenario.inFiveMinutes) = ""
  /\ phaseOf (instance (final (fake.Reconcile scenario.now scenario.request
                                 (scenario.alone "" scenario.inFiveMinutes))))
     = "PENDING"
  /\ List.filter isStatusUpdate
       (trace (final (fake.Reconcile scenario.now scenario.request
                        (scenario.alone "" scenario.inFiveMinutes)))) = []
  /\ ~ (exists obj,
          In (StatusUpdate obj)
             (trace (final (fake.Reconcile scenario.now scenario.request
                              (scenario.alone "" scenario.inFiveMinutes))))).
Proof.
  split; [vm_compute; reflexivity |].
  split; [reflexivity |].
  split; [vm_compute; reflexivity |].
  split; [vm_compute; reflexivity |].
  intros [obj Hin]. vm_compute in Hin.
  destruct Hin as [Hin | []]; discriminate Hin.
Qed.

Lemma not_found_is_success_witness :
  GetAtObject scenario.key scenario.empty = inl (errors.NewNotFound "demo")
  /\ errors.IsNotFound (errors.NewNotFound "demo") = true
  /\ result (fake.Reconcile scenario.now scenario.request scenario.empty) = reconcile.empty
  /\ failure (fake.Reconcile scenario.now scenario.request scenario.empty) = None
  /\ trace (final (fake.Reconcile scenario.now scenario.request scenario.empty))
     = [GetAt scenario.key]
  /\ cluster (final (fake.Reconcile scenario.now scenario.request scenario.empty))
     = scenario.empty.
Proof.
  assert (Hget : GetAtObject scenario.key scenario.empty = inl (errors.NewNotFound "demo"))
    by (vm_compute; reflexivity).
  assert (Hnf : errors.IsNotFound (errors.NewNotFound "demo") = true) by reflexivity.
  split; [exact Hget |]. split; [exact Hnf |].
  exact (not_found_is_success time.Parse fake.Registry fake.controllerReference
           fake.reconciler scenario.request scenario.now _ _ Hget Hnf).
Defined.

Lemma malformed_schedule_fails_witness :
  GetAtObject scenario.key (scenario.alone "PENDING" scenario.malformed)
  = inr (scenario.resource "PENDING" scenario.malformed)
  /\ awaiting (scenario.resource "PENDING" scenario.malformed)
  /\ time.Parse layout scenario.malformed = inl (ParseError layout scenario.malformed)
  /\ map failure
       (reconcileAll time.Parse fake.controllerReference fake.reconciler scenario.request
          [scenario.now; scenario.now + time.Second; scenario.now + 3 * time.Second]
          (scenario.alone "PENDING" scenario.malformed))
     = [Some (ParseError layout scenario.malformed);
        Some (ParseError layout scenario.malformed);
        Some (ParseError layout scenario.malformed)]
  /\ Forall (fun o => List.filter isStatusUpdate (trace (final o)) = []
                      /\ cluster (final o) = scenario.alone "PENDING" scenario.malformed)
       (reconcileAll time.Parse fake.controllerReference fake.reconciler scenario.request
          [scenario.now; scenario.now + time.Second; scenario.now + 3 * time.Second]
          (scenario.alone "PENDING" scenario.malformed)).
Proof.
  assert (Hget : GetAtObject scenario.key (scenario.alone "PENDING" scenario.malformed)
                 = inr (scenario.resource "PENDING" scenario.malformed))
    by (vm_compute; reflexivity).
  assert (Hp : awaiting (scenario.resource "PENDING" scenario.malformed))
    by (right; reflexivity).
  assert (Hparse : time.Parse layout scenario.malformed
                   = inl (ParseError layout scenario.malformed))
    by (vm_compute; reflexivity).
  do 3 (split; [assumption |]).
  split; [vm_compute; reflexivity |].
  eapply List.Forall_impl;
    [| exact (malformed_schedule_fails time.Parse fake.Registry fake.controllerReference
                fake.reconciler scenario.request scenario.now
                [scenario.now + time.Second; scenario.now + 3 * time.Second]
                _ _ _ Hget Hp Hparse)].
  intros o (_ & _ & _ & Hquiet & Hsame & _). split; assumption.
Defined.

Lemma create_only_if_absent_witness :
  GetAtObject scenario.key (scenario.alone "RUNNING" scenario.past)
  = inr (scenario.resource "RUNNING" scenario.past)
  /\ phaseOf (scenario.resource "RUNNING" scenario.past) = cnatv1alpha1.PhaseRunning
  /\ (exists pod,
        In (CreatePod pod)
           (trace (final (fake.Reconcile scenario.now scenario.request
                            (scenario.alone "RUNNING" scenario.past)))))
  /\ length
       (List.filter isCreatePod
          (trace (final (fake.Reconcile scenario.now scenario.request
                           (scenario.alone "RUNNING" scenario.past)))
           ++ trace (final (fake.Reconcile (scenario.now + time.Second) scenario.request
                              (cluster (final (fake.Reconcile scenario.now scenario.request
                                                 (scenario.alone "RUNNING" scenario.past))))))))
     = 1%nat
  /\ GetPodObject (derivedKey (scenario.resource "RUNNING" scenario.past))
       (scenario.withPod corev1.PodRunning)
     = inr (scenario.pod (scenario.resource "RUNNING" scenario.past) corev1.PodRunning)
  /\ List.filter isWrite
       (trace (final (fake.Reconcile scenario.now scenario.request
                        (scenario.withPod corev1.PodRunning)))) = [].
Proof.
  assert (Hget : GetAtObject scenario.key (scenario.alone "RUNNING" scenario.past)
                 = inr (scenario.resource "RUNNING" scenario.past))
    by (vm_compute; reflexivity).
  assert (Hp : phaseOf (scenario.resource "RUNNING" scenario.past)
               = cnatv1alpha1.PhaseRunning) by reflexivity.
  destruct (create_only_if_absent time.Parse fake.Registry fake.controllerReference
              fake.reconciler scenario.request scenario.now _ _ Hget Hp)
    as (Hiff & _ & Htwice & _).
  assert (Hget' : GetAtObject scenario.key (scenario.withPod corev1.PodRunning)
                  = inr (scenario.resource "RUNNING" scenario.past))
    by (vm_compute; reflexivity).
  assert (Hpod : GetPodObject (derivedKey (scenario.resource "RUNNING" scenario.past))
                   (scenario.withPod corev1.PodRunning)
                 = inr (scenario.pod (scenario.resource "RUNNING" scenario.past)
                          corev1.PodRunning))
    by (vm_compute; reflexivity).
  destruct (create_only_if_absent time.Parse fake.Registry fake.controllerReference
              fake.reconciler scenario.request scenario.now _ _ Hget' Hp)
    as (_ & _ & _ & Hactive).
  destruct (Hactive [fake.refTo (scenario.resource "RUNNING" scenario.past)] _
              eq_refl Hpod eq_refl) as (_ & Hquiet & _).
  split; [exact Hget |]. split; [exact Hp |].
  split; [| split; [| split; [exact Hpod | exact Hquiet]]].
  - apply Hiff. split; [vm_compute; auto |].
    exists (errors.NewNotFound "demo-pod"). split; vm_compute; reflexivity.
  - apply (Htwice (scenario.now + time.Second)
             (scenario.resource "RUNNING" scenario.past)
             [fake.refTo (scenario.resource "RUNNING" scenario.past)]
             (errors.NewNotFound "demo-pod")
             (scenario.pod (scenario.resource "RUNNING" scenario.past) ""));
      vm_compute; reflexivity.
Defined.

Lemma terminal_pod_means_done_witness :
  GetAtObject scenario.key (scenario.withPod corev1.PodSucceeded)
  = inr (scenario.resource "RUNNING" scenario.past)
  /\ persistedPhases
       (trace (final (fake.Reconcile scenario.now scenario.request
                        (scenario.withPod corev1.PodSucceeded))))
     = [cnatv1alpha1.PhaseDone]
  /\ GetAtObject scenario.key
       (cluster (final (fake.Reconcile scenario.now scenario.request
                          (scenario.withPod corev1.PodSucceeded))))
     = inr (scenario.resource "DONE" scenario.past)
  /\ trace (final (fake.Reconcile (scenario.now + time.Second) scenario.request
                     (cluster (final (fake.Reconcile scenario.now scenario.request
                                        (scenario.withPod corev1.PodSucceeded))))))
     = [GetAt scenario.key].
Proof.
  assert (Hget : GetAtObject scenario.key (scenario.withPod corev1.PodSucceeded)
                 = inr (scenario.resource "RUNNING" scenario.past))
    by (vm_compute; reflexivity).
  destruct (terminal_pod_means_done time.Parse fake.Registry fake.controllerReference
              fake.reconciler scenario.request scenario.now _ _ Hget) as [Hterm _].
  destruct (Hterm eq_refl
              [fake.refTo (scenario.resource "RUNNING" scenario.past)]
              (scenario.pod (scenario.resource "RUNNING" scenario.past) corev1.PodSucceeded))
    as (_ & _ & Hpersisted & _);
    [vm_compute; reflexivity | vm_compute; reflexivity | left; reflexivity |].
  assert (Hget2 : GetAtObject scenario.key
            (cluster (final (fake.Reconcile scenario.now scenario.request
                               (scenario.withPod corev1.PodSucceeded))))
          = inr (scenario.resource "DONE" scenario.past))
    by (vm_compute; reflexivity).
  destruct (terminal_pod_means_done time.Parse fake.Registry fake.controllerReference
              fake.reconciler scenario.request (scenario.now + time.Second) _ _ Hget2)
    as [_ Hdone].
  destruct (Hdone eq_refl) as (_ & _ & Htrace & _).
  split; [exact Hget |]. split; [exact Hpersisted |].
  split; [exact Hget2 | exact Htrace].
Defined.

Lemma newPodForCR_deterministic_witness :
  nameOf (scenario.resource "" scenario.past)
  = nameOf (scenario.resource "RUNNING" scenario.inFiveMinutes)
  /\ namespaceOf (scenario.resource "" scenario.past)
     = namespaceOf (scenario.resource "RUNNING" scenario.inFiveMinutes)
  /\ cnatv1alpha1.Command (cnatv1alpha1.Spec (scenario.resource "" scenario.past))
     = cnatv1alpha1.Command
         (cnatv1alpha1.Spec (scenario.resource "RUNNING" scenario.inFiveMinutes))
  /\ scenario.resource "" scenario.past
     <> scenario.resource "RUNNING" scenario.inFiveMinutes
  /\ newPodForCR (scenario.resource "" scenario.past)
     = newPodForCR (scenario.resource "RUNNING" scenario.inFiveMinutes)
  /\ map corev1.Command
       (corev1.Containers (corev1.Spec (newPodForCR (scenario.resource "" scenario.past))))
     = [["echo"; "YAY"]].
Proof.
  destruct (newPodForCR_deterministic (scenario.resource "" scenario.past)
              (scenario.resource "RUNNING" scenario.inFiveMinutes)
              eq_refl eq_refl eq_refl) as (Hsame & _ & _ & _ & Hcmd & _).
  do 3 (split; [reflexivity |]).
  split; [discriminate |].
  split; [exact Hsame | exact Hcmd].
Defined.

(** The three shapes all occur. *)
Example three_shapes_occur :
  (result (fake.Reconcile scenario.now scenario.request scenario.empty),
   failure (fake.Reconcile scenario.now scenario.request scenario.empty))
  = (reconcile.empty, None)
  /\ (result (fake.Reconcile scenario.now scenario.request
                (scenario.alone "" scenario.malformed)),
      failure (fake.Reconcile scenario.now scenario.request
                 (scenario.alone "" scenario.malformed)))
     = (reconcile.empty, Some (ParseError layout scenario.malformed))
  /\ (result (fake.Reconcile scenario.now scenario.request
                (scenario.alone "" scenario.inFiveMinutes)),
      failure (fake.Reconcile scenario.now scenario.request
                 (scenario.alone "" scenario.inFiveMinutes)))
     = (reconcile.after (5 * time.Minute), None).
Proof. repeat split; vm_compute; reflexivity. Qed.

(** A status update that fails makes the whole call fail, and the phase
    set in memory is not in the cluster. *)
Example failed_status_update_is_transient :
  failure (fake.Reconcile scenario.now scenario.request
             (scenario.conflicting (scenario.alone "" scenario.past)))
  = Some scenario.conflict
  /\ phaseOf (instance (final (fake.Reconcile scenario.now scenario.request
                                 (scenario.conflicting (scenario.alone "" scenario.past)))))
     = "RUNNING"
  /\ GetAtObject scenario.key
       (cluster (final (fake.Reconcile scenario.now scenario.request
                          (scenario.conflicting (scenario.alone "" scenario.past)))))
     = inr (scenario.resource "" scenario.past).
Proof. repeat split; vm_compute; reflexivity. Qed.

(** ** The other paths of [Reconcile] *)

Section ErrorPaths.

Context {W : Type} `{!Client W}.
Variable Parse : string -> string -> error + time.Time.
Variable runtimeScheme : Type.
Variable controllerReference :
  cnatv1alpha1.At -> corev1.Pod -> runtimeScheme -> error + list metav1.OwnerReference.
Variables (r : AtReconciler runtimeScheme) (req : reconcile.Request).

Local Abbreviation key := (reconcile.NamespacedName req).
Local Abbreviation run := (Reconcile Parse controllerReference r).

(** X1. When the read of the resource fails with an error that is not
    NotFound, [Reconcile] returns that error with the empty result, makes
    no other call and leaves the cluster as it was. *)
Theorem read_error_is_returned now w e :
  GetAtObject key w = inl e ->
  errors.IsNotFound e = false ->
  result (run now req w) = reconcile.empty
  /\ failure (run now req w) = Some e
  /\ trace (final (run now req w)) = [GetAt key]
  /\ cluster (final (run now req w)) = w.
Proof.
  intros Hget Hnf. rewrite path_read_failed with (e := e) by assumption.
  rewrite Hnf. repeat split.
Qed.

(** X2. A phase that is none of unset, PENDING, RUNNING and DONE takes
    the default arm: [Reconcile] succeeds without a follow-up, makes no
    call but the read, and neither the cluster nor the object changes. *)
Theorem unknown_phase_is_left_alone now w cr :
  GetAtObject key w = inr cr ->
  ~ In (phaseOf cr) phaseOrder ->
  result (run now req w) = reconcile.empty
  /\ failure (run now req w) = None
  /\ trace (final (run now req w)) = [GetAt key]
  /\ cluster (final (run now req w)) = w
  /\ instance (final (run now req w)) = cr.
Proof.
  intros Hget Hout. cbn in Hout.
  rewrite run_idle with (cr := cr); try assumption.
  - repeat split.
  - intros Hp. apply Hout. left. symmetry. exact Hp.
  - intros Hp. apply Hout. right. left. symmetry. exact Hp.
  - intros Hp. apply Hout. right. right. left. symmetry. exact Hp.
Qed.

(** X3. In the RUNNING arm a failure to set the owner reference is
    returned at once: the pod is neither looked up nor created and no
    status is written. *)
Theorem owner_reference_failure_stops now w cr e :
  GetAtObject key w = inr cr ->
  phaseOf cr = cnatv1alpha1.PhaseRunning ->
  controllerReference cr (newPodForCR cr) (Scheme r) = inl e ->
  result (run now req w) = reconcile.empty
  /\ failure (run now req w) = Some e
  /\ trace (final (run now req w)) = [GetAt key]
  /\ cluster (final (run now req w)) = w.
Proof.
  intros Hget Hp Href. rewrite run_running with (cr := cr) by assumption.
  rewrite Href. repeat split.
Qed.

(** X4. In the RUNNING arm a failure of the pod lookup other than
    NotFound is returned: nothing is created and no status is written. *)
Theorem pod_lookup_failure_stops now w cr refs e :
  GetAtObject key w = inr cr ->
  phaseOf cr = cnatv1alpha1.PhaseRunning ->
  controllerReference cr (newPodForCR cr) (Scheme r) = inr refs ->
  GetPodObject (derivedKey cr) w = inl e ->
  errors.IsNotFound e = false ->
  result (run now req w) = reconcile.empty
  /\ failure (run now req w) = Some e
  /\ trace (final (run now req w)) = [GetAt key; GetPod (derivedKey cr)]
  /\ cluster (final (run now req w)) = w.
Proof.
  intros Hget Hp Href Hpod Hnf. rewrite run_running with (cr := cr) by assumption.
  cbv zeta. rewrite Href, Hpod, Hnf. repeat split.
Qed.

(** X5. When the pod is absent and [Create] fails, [Reconcile] returns
    the error of [Create] and does not go on to the status update. *)
Theorem create_failure_skips_status_update now w cr refs e e1 :
  GetAtObject key w = inr cr ->
  phaseOf cr = cnatv1alpha1.PhaseRunning ->
  controllerReference cr (newPodForCR cr) (Scheme r) = inr refs ->
  GetPodObject (derivedKey cr) w = inl e ->
  errors.IsNotFound e = true ->
  fst (Create (corev1.setOwnerReferences (newPodForCR cr) refs) w) = Some e1 ->
  result (run now req w) = reconcile.empty
  /\ failure (run now req w) = Some e1
  /\ trace (final (run now req w))
     = [GetAt key; GetPod (derivedKey cr);
        CreatePod (corev1.setOwnerReferences (newPodForCR cr) refs)]
  /\ cluster (final (run now req w))
     = snd (Create (corev1.setOwnerReferences (newPodForCR cr) refs) w).
Proof.
  intros Hget Hp Href Hpod Hnf Hcreate. rewrite run_running with (cr := cr) by assumption.
  cbv zeta. rewrite Href, Hpod, Hnf.
  destruct (Create _ _) as [[e' |] w1]; cbn in Hcreate; [| discriminate Hcreate].
  injection Hcreate as ->. repeat split.
Qed.

(** X6. When the pod is absent and [Create] succeeds, [Reconcile] goes on
    to the status update although the phase has not changed: it hands the
    object as it was read, still RUNNING, to the status writer, and what
    it returns is the answer of that update. *)
Theorem created_pod_is_followed_by_status_update now w cr refs e :
  GetAtObject key w = inr cr ->
  phaseOf cr = cnatv1alpha1.PhaseRunning ->
  controllerReference cr (newPodForCR cr) (Scheme r) = inr refs ->
  GetPodObject (derivedKey cr) w = inl e ->
  errors.IsNotFound e = true ->
  fst (Create (corev1.setOwnerReferences (newPodForCR cr) refs) w) = None ->
  trace (final (run now req w))
  = [GetAt key; GetPod (derivedKey cr);
     CreatePod (corev1.setOwnerReferences (newPodForCR cr) refs); StatusUpdate cr]
  /\ result (run now req w) = reconcile.empty
  /\ failure (run now req w)
     = fst (StatusUpdateObject cr
              (snd (Create (corev1.setOwnerReferences (newPodForCR cr) refs) w)))
  /\ cluster (final (run now req w))
     = snd (StatusUpdateObject cr
              (snd (Create (corev1.setOwnerReferences (newPodForCR cr) refs) w)))
  /\ instance (final (run now req w)) = cr.
Proof.
  intros Hget Hp Href Hpod Hnf Hcreate. rewrite run_running with (cr := cr) by assumption.
  cbv zeta. rewrite Href, Hpod, Hnf.
  destruct (Create _ _) as [[e' |] w1]; cbn in Hcreate; [discriminate Hcreate |].
  cbn [snd]. destruct (StatusUpdateObject cr w1) as [e2 w2]. repeat split.
Qed.

End ErrorPaths.

(** ** What every call of [Reconcile] keeps to *)

Section Invariants.

Context {W : Type} `{!Client W}.
Variable Parse : string -> string -> error + time.Time.
Variable runtimeScheme : Type.
Variable controllerReference :
  cnatv1alpha1.At -> corev1.Pod -> runtimeScheme -> error + list metav1.OwnerReference.
Variables (r : AtReconciler runtimeScheme) (req : reconcile.Request).

Local Abbreviation key := (reconcile.NamespacedName req).
Local Abbreviation run := (Reconcile Parse controllerReference r).

(** Every path, one goal each, with the outcome written out. *)
Ltac all_paths now w :=
  destruct (GetAtObject key w) as [e | cr] eqn:Hget;
  [ rewrite path_read_failed with (e := e) by assumption
  | destruct (phase_cases cr) as [Hp | [Hp | (H0 & Hp & Hr)]];
    [ rewrite run_awaiting with (cr := cr) by assumption;
      destruct (Parse layout (scheduleOf cr)) as [e | t] eqn:Hparse;
      [| destruct (time.Sub t now >? 0) eqn:Hdue;
         [| cbv zeta; destruct (StatusUpdateObject _ w) as [e2 w2] eqn:Hupd]]
    | rewrite run_running with (cr := cr) by assumption; cbv zeta;
      destruct (controllerReference cr (newPodForCR cr) (Scheme r)) as [e | refs] eqn:Href;
      [| destruct (GetPodObject (derivedKey cr) w) as [e | found] eqn:Hpod;
         [ destruct (errors.IsNotFound e) eqn:Hnf;
           [ destruct (Create _ w) as [[e1 |] w1] eqn:Hcreate;
             [| destruct (StatusUpdateObject cr w1) as [e2 w2] eqn:Hupd] |]
         | destruct (terminal found) eqn:Hterm;
           [ destruct (StatusUpdateObject _ w) as [e2 w2] eqn:Hupd |]]]
    | rewrite run_idle with (cr := cr) by assumption ]].

(** X7. The calls of one [Reconcile] are at most four, in a fixed order:
    the read of the resource first; then at most one lookup of the pod,
    which a [Create] may follow, of a pod with the key looked up; then at
    most one status update, as the last call. *)
Theorem calls_are_ordered now w :
  ordered key (trace (final (run now req w)))
  /\ (length (trace (final (run now req w))) <= 4)%nat.
Proof.
  unfold ordered. all_paths now w; cbn [outcome final trace length];
    (split; [| lia]).
  all: try (exists [], []; split; [reflexivity | split; constructor]).
  all: try (exists [], [StatusUpdate
                          (cnatv1alpha1.setPhase (defaulted cr) cnatv1alpha1.PhaseRunning)];
            split; [reflexivity | split; constructor]).
  all: try (exists [GetPod (derivedKey cr)], []; split; [reflexivity | split; constructor]).
  all: try (exists [GetPod (derivedKey cr)],
                   [StatusUpdate (cnatv1alpha1.setPhase cr cnatv1alpha1.PhaseDone)];
            split; [reflexivity | split; constructor]).
  - exists [GetPod (podKey (corev1.setOwnerReferences (newPodForCR cr) refs));
            CreatePod (corev1.setOwnerReferences (newPodForCR cr) refs)], [].
    split; [reflexivity | split; constructor].
  - exists [GetPod (podKey (corev1.setOwnerReferences (newPodForCR cr) refs));
            CreatePod (corev1.setOwnerReferences (newPodForCR cr) refs)],
           [StatusUpdate cr].
    split; [reflexivity | split; constructor].
Qed.

(** X8. Whatever [Reconcile] hands to the status writer is the object it
    read with nothing but the phase touched: metadata and spec are those
    read, the phase is RUNNING or DONE (never unset, never PENDING), and
    it is the object in memory on return. *)
Theorem status_write_touches_only_the_phase now w obj :
  In (StatusUpdate obj) (trace (final (run now req w))) ->
  exists cr,
    GetAtObject key w = inr cr
    /\ cnatv1alpha1.ObjectMeta obj = cnatv1alpha1.ObjectMeta cr
    /\ cnatv1alpha1.Spec obj = cnatv1alpha1.Spec cr
    /\ (phaseOf obj = cnatv1alpha1.PhaseRunning \/ phaseOf obj = cnatv1alpha1.PhaseDone)
    /\ obj = instance (final (run now req w)).
Proof.
  all_paths now w; cbn [outcome final trace instance In]; intros Hin;
    repeat (destruct Hin as [Hin | Hin]; try discriminate Hin); try contradiction;
    injection Hin as <-; exists cr; (split; [reflexivity |]).
  - unfold defaulted. destruct (String.eqb (phaseOf cr) ""); cbn; auto.
  - cbn. auto.
  - cbn. auto.
Qed.

(** X9. A pod that [Reconcile] creates is the pod of [newPodForCR] for
    the resource read, with the owner references set and nothing else
    changed; the resource was RUNNING, and the lookup under the pod's own
    key, which is the derived key, had answered NotFound. *)
Theorem created_pod_is_the_derived_one now w pod :
  In (CreatePod pod) (trace (final (run now req w))) ->
  exists cr refs e,
    GetAtObject key w = inr cr
    /\ phaseOf cr = cnatv1alpha1.PhaseRunning
    /\ controllerReference cr (newPodForCR cr) (Scheme r) = inr refs
    /\ pod = corev1.setOwnerReferences (newPodForCR cr) refs
    /\ corev1.Spec pod = corev1.Spec (newPodForCR cr)
    /\ podKey pod = derivedKey cr
    /\ GetPodObject (podKey pod) w = inl e /\ errors.IsNotFound e = true.
Proof.
  all_paths now w; cbn [outcome final trace In]; intros Hin;
    repeat (destruct Hin as [Hin | Hin]; try discriminate Hin); try contradiction;
    injection Hin as <-; exists cr, refs, e; repeat split; assumption.
Qed.


(** X12. The follow-up comes in time: when a first [Reconcile] asked
    for a follow-up and the delay was not cut down to the largest
    duration, a [Reconcile] made once the delay has passed, on the
    cluster the first one left, finds the schedule due, sets the phase
    to RUNNING and hands it to the status writer. *)
Theorem follow_up_finds_schedule_due now now' w cr t :
  GetAtObject key w = inr cr ->
  awaiting cr ->
  Parse layout (scheduleOf cr) = inr t ->
  now < t ->
  t - now <= time.maxDuration ->
  now + reconcile.RequeueAfter (result (run now req w)) <= now' ->
  trace (final (run now' req (cluster (final (run now req w)))))
  = [GetAt key;
     StatusUpdate (cnatv1alpha1.setPhase (defaulted cr) cnatv1alpha1.PhaseRunning)]
  /\ phaseOf (instance (final (run now' req (cluster (final (run now req w))))))
     = cnatv1alpha1.PhaseRunning.
Proof.
  intros Hget Hp Hparse Hlt Hfit.
  rewrite run_awaiting with (cr := cr) (now := now) by assumption. rewrite Hparse.
  pose proof (proj2 (Sub_pos t now) Hlt) as Hpos.
  destruct (Z.gtb_spec (time.Sub t now) 0) as [_ | Hle]; [| lia].
  cbn [outcome result final cluster reconcile.after reconcile.RequeueAfter].
  rewrite Sub_exact by (unfold time.minDuration; lia). intros Hwake.
  rewrite run_awaiting with (cr := cr) by assumption. rewrite Hparse.
  assert (Hnot : ~ 0 < time.Sub t now') by (rewrite Sub_pos; lia).
  destruct (Z.gtb_spec (time.Sub t now') 0) as [Hlate | _]; [contradiction |].
  cbv zeta. destruct (StatusUpdateObject _ _) as [e2 w2]. split; reflexivity.
Qed.


End Invariants.

(** X11. Only the PENDING arm reads the clock and parses the schedule:
    when the read fails, or the phase read is neither unset nor PENDING,
    the whole outcome of [Reconcile] is the same at any two times and
    with any two parsers, so a schedule that does not parse cannot
    disturb a resource that is RUNNING or DONE. *)
Theorem clock_and_schedule_matter_only_while_pending
  {W : Type} `{!Client W} {runtimeScheme : Type}
  (Parse1 Parse2 : string -> string -> error + time.Time)
  (controllerReference :
     cnatv1alpha1.At -> corev1.Pod -> runtimeScheme -> error + list metav1.OwnerReference)
  (r : AtReconciler runtimeScheme) (req : reconcile.Request)
  (now1 now2 : time.Time) (w : W) :
  (forall cr, GetAtObject (reconcile.NamespacedName req) w = inr cr -> ~ awaiting cr) ->
  Reconcile Parse1 controllerReference r now1 req w
  = Reconcile Parse2 controllerReference r now2 req w.
Proof.
  intros Hnot.
  destruct (GetAtObject (reconcile.NamespacedName req) w) as [e | cr] eqn:Hget.
  - rewrite !path_read_failed with (e := e) by assumption. reflexivity.
  - destruct (phase_cases cr) as [Hp | [Hp | (H0 & Hp & Hr)]].
    + exfalso. exact (Hnot cr eq_refl Hp).
    + rewrite !run_running with (cr := cr) by assumption. reflexivity.
    + rewrite !run_idle with (cr := cr) by assumption. reflexivity.
Qed.

(** ** [timeUntilSchedule] and [newPodForCR] *)

(** X13. [timeUntilSchedule] answers a schedule that does not parse with
    the zero duration and the parse error. Otherwise the error is nil,
    the duration fits an [int64], and its sign is that of schedule minus
    now however far apart the two are: negative exactly when the
    schedule is overdue, zero exactly when it is now. *)
Theorem timeUntilSchedule_keeps_the_sign
  (Parse : string -> string -> error + time.Time) (now : time.Time) (schedule : string) :
  match Parse layout schedule with
  | inl e => timeUntilSchedule Parse now schedule = (0, Some e)
  | inr t =>
      snd (timeUntilSchedule Parse now schedule) = None
      /\ time.minDuration <= fst (timeUntilSchedule Parse now schedule) <= time.maxDuration
      /\ (fst (timeUntilSchedule Parse now schedule) < 0 <-> t < now)
      /\ (fst (timeUntilSchedule Parse now schedule) = 0 <-> t = now)
      /\ (0 < fst (timeUntilSchedule Parse now schedule) <-> now < t)
      /\ Z.abs (fst (timeUntilSchedule Parse now schedule)) <= Z.abs (t - now)
  end.
Proof.
  unfold timeUntilSchedule. fold layout.
  destruct (Parse layout schedule) as [e | t]; [reflexivity |].
  cbn [fst snd]. unfold time.Sub, time.maxDuration, time.minDuration.
  destruct (Z.gtb_spec (t - now) (2 ^ 63 - 1));
    [| destruct (Z.ltb_spec (t - now) (- 2 ^ 63))];
    repeat split; intros; lia.
Qed.

Lemma Split_length s sep :
  length (strings.Split s sep) = S (countByte sep s).
Proof.
  induction s as [| c rest IH]; [reflexivity |].
  cbn [strings.Split countByte].
  destruct (Ascii.eqb c sep); cbn [length]; [rewrite IH; reflexivity |].
  destruct (strings.Split rest sep) as [| field fields] eqn:Hsplit; cbn in IH |- *;
    [discriminate IH | exact IH].
Qed.

Lemma Split_fields s sep :
  Forall (fun field => countByte sep field = O) (strings.Split s sep).
Proof.
  induction s as [| c rest IH]; cbn [strings.Split].
  - apply List.Forall_cons; [reflexivity | apply List.Forall_nil].
  - destruct (Ascii.eqb c sep) eqn:Hc.
    + apply List.Forall_cons; [reflexivity | exact IH].
    + destruct (strings.Split rest sep) as [| field fields].
      * apply List.Forall_cons; [cbn; rewrite Hc; reflexivity | apply List.Forall_nil].
      * inversion IH as [| ? ? Hfield Hfields]; subst.
        apply List.Forall_cons; [cbn; rewrite Hc; exact Hfield | exact Hfields].
Qed.

(** X14. The pod of [newPodForCR] has one container, and its command
    loses nothing of [spec.command]: joined with spaces it is
    [spec.command] again. It has one argument more than the command has
    spaces, so it is never empty (an empty command gives the one empty
    argument) and two spaces in a row give an empty argument; no argument
    holds a space. *)
Theorem newPodForCR_command_round_trip (cr : cnatv1alpha1.At) :
  exists c,
    corev1.Containers (corev1.Spec (newPodForCR cr)) = [c]
    /\ strings.Join (corev1.Command c) " " = cnatv1alpha1.Command (cnatv1alpha1.Spec cr)
    /\ length (corev1.Command c)
       = S (countByte " " (cnatv1alpha1.Command (cnatv1alpha1.Spec cr)))
    /\ Forall (fun arg => countByte " " arg = O) (corev1.Command c).
Proof.
  eexists. split; [reflexivity |]. cbn [corev1.Command].
  split; [apply Join_Split |]. split; [apply Split_length | apply Split_fields].
Qed.

Lemma list_ascii_of_append s1 s2 :
  list_ascii_of_string (s1 +:+ s2) = list_ascii_of_string s1 ++ list_ascii_of_string s2.
Proof.
  induction s1 as [| c s1 IH]; [reflexivity |].
  change (c :: list_ascii_of_string (s1 +:+ s2)
          = c :: list_ascii_of_string s1 ++ list_ascii_of_string s2).
  rewrite IH. reflexivity.
Qed.

Lemma append_cancel_r s1 s2 suffix : s1 +:+ suffix = s2 +:+ suffix -> s1 = s2.
Proof.
  intros Heq. apply (f_equal list_ascii_of_string) in Heq.
  rewrite !list_ascii_of_append in Heq. apply app_inv_tail in Heq.
  rewrite <- (string_of_list_ascii_of_string s1), <- (string_of_list_ascii_of_string s2).
  rewrite Heq. reflexivity.
Qed.

(** X15. Two resources get pods under the same key exactly when they
    have the same name and namespace: the suffix ["-pod"] never makes the
    pods of two resources of one namespace collide. *)
Theorem pods_collide_only_for_the_same_resource (cr1 cr2 : cnatv1alpha1.At) :
  podKey (newPodForCR cr1) = podKey (newPodForCR cr2)
  <-> nameOf cr1 = nameOf cr2 /\ namespaceOf cr1 = namespaceOf cr2.
Proof.
  unfold podKey, newPodForCR. cbn. split.
  - intros Heq. injection Heq as Hns Hname.
    split; [exact (append_cancel_r _ _ _ Hname) | exact Hns].
  - intros [-> ->]. reflexivity.
Qed.

(** ** The pod lister *)

Lemma int32_add_l a b : int32 (int32 a + b) = int32 (a + b).
Proof.
  unfold int32. f_equal.
  replace ((a + 2 ^ 31) mod 2 ^ 32 - 2 ^ 31 + b + 2 ^ 31)
    with ((a + 2 ^ 31) mod 2 ^ 32 + b) by lia.
  rewrite Zplus_mod_idemp_l. f_equal. lia.
Qed.

Lemma int32_range z : minInt32 <= int32 z <= maxInt32.
Proof.
  unfold int32, minInt32, maxInt32.
  pose proof (Z.mod_pos_bound (z + 2 ^ 31) (2 ^ 32) ltac:(lia)). lia.
Qed.

Lemma int32_exact z : minInt32 <= z <= maxInt32 -> int32 z = z.
Proof.
  unfold int32, minInt32, maxInt32. intros Hz.
  rewrite Z.mod_small by lia. lia.
Qed.

Lemma restarts_from (l : list v1.ContainerStatus) (acc : Z) :
  fold_left (fun total cs => int32 (total + v1.RestartCount cs)) l (int32 acc)
  = int32 (acc + sumZ (restartCounts l)).
Proof.
  revert acc. unfold restartCounts.
  induction l as [| cs l IH]; intros acc; cbn [fold_left map sumZ fold_right].
  - rewrite Z.add_0_r. reflexivity.
  - rewrite int32_add_l, IH. rewrite Z.add_assoc. reflexivity.
Qed.

Lemma sumZ_Permutation (l l' : list Z) : Permutation l l' -> sumZ l = sumZ l'.
Proof. unfold sumZ. induction 1; cbn [fold_right] in *; lia. Qed.

Lemma sumZ_app (l l' : list Z) : sumZ (l ++ l') = sumZ l + sumZ l'.
Proof.
  unfold sumZ. induction l as [| z l IH]; cbn [app fold_right];
    [reflexivity | rewrite IH; lia].
Qed.

(** X16. [getTotalRestarts] is the sum of the restart counts reduced to
    an [int32]: it always lies in the [int32] range, and it is the true
    sum whenever that sum fits, whatever the partial sums do on the way. *)
Theorem getTotalRestarts_is_the_wrapped_sum (l : list v1.ContainerStatus) :
  main.getTotalRestarts l = int32 (sumZ (restartCounts l))
  /\ minInt32 <= main.getTotalRestarts l <= maxInt32
  /\ (minInt32 <= sumZ (restartCounts l) <= maxInt32 ->
      main.getTotalRestarts l = sumZ (restartCounts l)).
Proof.
  assert (Heq : main.getTotalRestarts l = int32 (sumZ (restartCounts l))).
  { unfold main.getTotalRestarts. change 0 with (int32 0) at 1.
    rewrite restarts_from. f_equal. }
  split; [exact Heq |]. rewrite Heq.
  split; [apply int32_range | apply int32_exact].
Qed.

(** X17. The order of the containers does not matter to
    [getTotalRestarts], also when the sum wraps around, and the total of
    two lists put together is the [int32] sum of their totals. *)
Theorem getTotalRestarts_ignores_the_order (l l' : list v1.ContainerStatus) :
  (Permutation l l' -> main.getTotalRestarts l = main.getTotalRestarts l')
  /\ main.getTotalRestarts (l ++ l')
     = int32 (main.getTotalRestarts l + main.getTotalRestarts l').
Proof.
  assert (Hsum : forall k, main.getTotalRestarts k = int32 (sumZ (restartCounts k))).
  { intros k. unfold main.getTotalRestarts. change 0 with (int32 0) at 1.
    rewrite restarts_from. f_equal. }
  split.
  - intros Hperm. rewrite !Hsum. f_equal. apply sumZ_Permutation.
    unfold restartCounts. apply Permutation_map. exact Hperm.
  - rewrite !Hsum. unfold restartCounts. rewrite map_app, sumZ_app.
    generalize (sumZ (map v1.RestartCount l)) (sumZ (map v1.RestartCount l')).
    intros a b. rewrite (int32_add_l a (int32 b)), (Z.add_comm a (int32 b)).
    rewrite (int32_add_l b a), (Z.add_comm b a). reflexivity.
Qed.

Lemma rem_toward_zero d m :
  0 < m ->
  (0 <= d -> 0 <= Z.rem d m <= d /\ Z.rem d m < m)
  /\ (d <= 0 -> d <= Z.rem d m <= 0 /\ - m < Z.rem d m).
Proof.
  intros Hm. pose proof (Z.quot_rem' d m) as Hqr. split; intros Hd.
  - pose proof (Z.rem_bound_pos d m Hd Hm).
    pose proof (Z.quot_pos d m Hd Hm). nia.
  - assert (Hopp : Z.rem d m = - Z.rem (- d) m).
    { replace d with (- - d) at 1 by lia. apply Z.rem_opp_l. lia. }
    pose proof (Z.rem_bound_pos (- d) m ltac:(lia) Hm).
    pose proof (Z.quot_pos (- d) m ltac:(lia) Hm).
    pose proof (Z.quot_rem' (- d) m). nia.
Qed.

(** X18. The age [extractPodInfo] reports is a whole number of seconds,
    rounded toward zero: it differs from [now.Sub(created)] by less than
    a second and is never larger in size; it is between zero and now
    minus creation for a pod created in the past, and never positive for
    a pod whose creation time lies ahead of the clock. *)
Theorem age_is_whole_seconds_toward_zero (pod : v1.Pod) (now : time.Time) :
  let age := main.Age (main.extractPodInfo pod now) in
  let d := time.Sub now (v1.CreationTimestamp pod) in
  (exists k, age = k * time.Second)
  /\ Z.abs age <= Z.abs d
  /\ Z.abs (d - age) < time.Second
  /\ (v1.CreationTimestamp pod <= now -> 0 <= age <= now - v1.CreationTimestamp pod)
  /\ (now <= v1.CreationTimestamp pod -> age <= 0).
Proof.
  intros age d. subst age. cbn [main.extractPodInfo main.Age]. fold d.
  unfold Truncate. change (time.Second <=? 0) with false. cbn iota.
  assert (Hs : 0 < time.Second) by reflexivity.
  destruct (rem_toward_zero d time.Second Hs) as [Hpos Hneg].
  pose proof (Z.quot_rem' d time.Second) as Hqr.
  assert (Hd : (v1.CreationTimestamp pod <= now -> 0 <= d <= now - v1.CreationTimestamp pod)
               /\ (now <= v1.CreationTimestamp pod -> d <= 0)).
  { subst d. unfold time.Sub, time.maxDuration, time.minDuration.
    destruct (Z.gtb_spec (now - v1.CreationTimestamp pod) (2 ^ 63 - 1));
      [| destruct (Z.ltb_spec (now - v1.CreationTimestamp pod) (- 2 ^ 63))];
      split; intros; lia. }
  destruct Hd as [Hpast Hahead].
  split; [exists (d ÷ time.Second); lia |].
  assert (Hrem : (0 <= d -> 0 <= Z.rem d time.Second <= d
                             /\ Z.rem d time.Second < time.Second)
                 /\ (d <= 0 -> d <= Z.rem d time.Second <= 0
                               /\ - time.Second < Z.rem d time.Second))
    by (split; assumption).
  clear Hpos Hneg Hqr.
  generalize dependent (Z.rem d time.Second). intros rem [Hpos Hneg].
  split; [lia |]. split; [lia |].
  split; [intros Hcreated; specialize (Hpast Hcreated); lia
         | intros Hcreated; specialize (Hahead Hcreated); lia].
Qed.

(** ** The further properties on the resource [default/demo] *)

Lemma read_error_is_returned_witness :
  GetAtObject scenario.key
    (cases.failing cases.readFails (scenario.alone "RUNNING" scenario.past))
  = inl cases.refused
  /\ errors.IsNotFound cases.refused = false
  /\ failure (fake.Reconcile scenario.now scenario.request
                (cases.failing cases.readFails (scenario.alone "RUNNING" scenario.past)))
     = Some cases.refused
  /\ trace (final (fake.Reconcile scenario.now scenario.request
                     (cases.failing cases.readFails
                        (scenario.alone "RUNNING" scenario.past))))
     = [GetAt scenario.key].
Proof.
  assert (Hget : GetAtObject scenario.key
                   (cases.failing cases.readFails (scenario.alone "RUNNING" scenario.past))
                 = inl cases.refused) by (vm_compute; reflexivity).
  assert (Hnf : errors.IsNotFound cases.refused = false) by reflexivity.
  destruct (read_error_is_returned time.Parse fake.Registry fake.controllerReference
              fake.reconciler scenario.request scenario.now _ _ Hget Hnf)
    as (_ & Hfail & Htrace & _).
  split; [exact Hget |]. split; [exact Hnf |]. split; [exact Hfail | exact Htrace].
Defined.

Lemma unknown_phase_is_left_alone_witness :
  GetAtObject scenario.key (scenario.alone "PAUSED" scenario.past)
  = inr (scenario.resource "PAUSED" scenario.past)
  /\ ~ In "PAUSED" phaseOrder
  /\ failure (fake.Reconcile scenario.now scenario.request
                (scenario.alone "PAUSED" scenario.past)) = None
  /\ trace (final (fake.Reconcile scenario.now scenario.request
                     (scenario.alone "PAUSED" scenario.past)))
     = [GetAt scenario.key]
  /\ cluster (final (fake.Reconcile scenario.now scenario.request
                       (scenario.alone "PAUSED" scenario.past)))
     = scenario.alone "PAUSED" scenario.past.
Proof.
  assert (Hget : GetAtObject scenario.key (scenario.alone "PAUSED" scenario.past)
                 = inr (scenario.resource "PAUSED" scenario.past))
    by (vm_compute; reflexivity).
  assert (Hout : ~ In "PAUSED" phaseOrder).
  { cbn. intros [H | [H | [H | [H | []]]]]; discriminate H. }
  destruct (unknown_phase_is_left_alone time.Parse fake.Registry fake.controllerReference
              fake.reconciler scenario.request scenario.now _ _ Hget Hout)
    as (_ & Hnil & Htrace & Hsame & _).
  split; [exact Hget |]. split; [exact Hout |].
  split; [exact Hnil |]. split; [exact Htrace | exact Hsame].
Defined.

Lemma owner_reference_failure_stops_witness :
  GetAtObject scenario.key (scenario.alone "RUNNING" scenario.past) = inr cases.running
  /\ phaseOf cases.running = cnatv1alpha1.PhaseRunning
  /\ fake.controllerReference cases.running (newPodForCR cases.running)
       (Scheme cases.unregistered)
     = inl (OtherError "no kind is registered for the type v1alpha1.At")
  /\ trace (final (Reconcile time.Parse fake.controllerReference cases.unregistered
                     scenario.now scenario.request
                     (scenario.alone "RUNNING" scenario.past)))
     = [GetAt scenario.key]
  /\ failure (Reconcile time.Parse fake.controllerReference cases.unregistered
                scenario.now scenario.request (scenario.alone "RUNNING" scenario.past))
     = Some (OtherError "no kind is registered for the type v1alpha1.At").
Proof.
  assert (Hget : GetAtObject scenario.key (scenario.alone "RUNNING" scenario.past)
                 = inr cases.running) by (vm_compute; reflexivity).
  assert (Hp : phaseOf cases.running = cnatv1alpha1.PhaseRunning) by reflexivity.
  assert (Href : fake.controllerReference cases.running (newPodForCR cases.running)
                   (Scheme cases.unregistered)
                 = inl (OtherError "no kind is registered for the type v1alpha1.At"))
    by (vm_compute; reflexivity).
  destruct (owner_reference_failure_stops time.Parse fake.Registry fake.controllerReference
              cases.unregistered scenario.request scenario.now _ _ _ Hget Hp Href)
    as (_ & Hfail & Htrace & _).
  do 3 (split; [assumption |]). split; [exact Htrace | exact Hfail].
Defined.

Lemma pod_lookup_failure_stops_witness :
  GetAtObject scenario.key
    (cases.failing cases.lookupFails (scenario.alone "RUNNING" scenario.past))
  = inr cases.running
  /\ phaseOf cases.running = cnatv1alpha1.PhaseRunning
  /\ fake.controllerReference cases.running (newPodForCR cases.running)
       (Scheme fake.reconciler) = inr [fake.refTo cases.running]
  /\ GetPodObject (derivedKey cases.running)
       (cases.failing cases.lookupFails (scenario.alone "RUNNING" scenario.past))
     = inl cases.refused
  /\ errors.IsNotFound cases.refused = false
  /\ failure (fake.Reconcile scenario.now scenario.request
                (cases.failing cases.lookupFails (scenario.alone "RUNNING" scenario.past)))
     = Some cases.refused
  /\ trace (final (fake.Reconcile scenario.now scenario.request
                     (cases.failing cases.lookupFails
                        (scenario.alone "RUNNING" scenario.past))))
     = [GetAt scenario.key; GetPod (derivedKey cases.running)].
Proof.
  assert (Hget : GetAtObject scenario.key
                   (cases.failing cases.lookupFails (scenario.alone "RUNNING" scenario.past))
                 = inr cases.running) by (vm_compute; reflexivity).
  assert (Hp : phaseOf cases.running = cnatv1alpha1.PhaseRunning) by reflexivity.
  assert (Href : fake.controllerReference cases.running (newPodForCR cases.running)
                   (Scheme fake.reconciler) = inr [fake.refTo cases.running])
    by (vm_compute; reflexivity).
  assert (Hpod : GetPodObject (derivedKey cases.running)
                   (cases.failing cases.lookupFails (scenario.alone "RUNNING" scenario.past))
                 = inl cases.refused) by (vm_compute; reflexivity).
  assert (Hnf : errors.IsNotFound cases.refused = false) by reflexivity.
  destruct (pod_lookup_failure_stops time.Parse fake.Registry fake.controllerReference
              fake.reconciler scenario.request scenario.now _ _ _ _ Hget Hp Href Hpod Hnf)
    as (_ & Hfail & Htrace & _).
  do 5 (split; [assumption |]). split; [exact Hfail | exact Htrace].
Defined.

Lemma create_failure_skips_status_update_witness :
  GetAtObject scenario.key
    (cases.failing cases.createFails (scenario.alone "RUNNING" scenario.past))
  = inr cases.running
  /\ phaseOf cases.running = cnatv1alpha1.PhaseRunning
  /\ fake.controllerReference cases.running (newPodForCR cases.running)
       (Scheme fake.reconciler) = inr [fake.refTo cases.running]
  /\ GetPodObject (derivedKey cases.running)
       (cases.failing cases.createFails (scenario.alone "RUNNING" scenario.past))
     = inl (errors.NewNotFound "demo-pod")
  /\ errors.IsNotFound (errors.NewNotFound "demo-pod") = true
  /\ fst (Create cases.ownedPod
            (cases.failing cases.createFails (scenario.alone "RUNNING" scenario.past)))
     = Some cases.refused
  /\ failure (fake.Reconcile scenario.now scenario.request
                (cases.failing cases.createFails (scenario.alone "RUNNING" scenario.past)))
     = Some cases.refused
  /\ trace (final (fake.Reconcile scenario.now scenario.request
                     (cases.failing cases.createFails
                        (scenario.alone "RUNNING" scenario.past))))
     = [GetAt scenario.key; GetPod (derivedKey cases.running); CreatePod cases.ownedPod].
Proof.
  assert (Hget : GetAtObject scenario.key
                   (cases.failing cases.createFails (scenario.alone "RUNNING" scenario.past))
                 = inr cases.running) by (vm_compute; reflexivity).
  assert (Hp : phaseOf cases.running = cnatv1alpha1.PhaseRunning) by reflexivity.
  assert (Href : fake.controllerReference cases.running (newPodForCR cases.running)
                   (Scheme fake.reconciler) = inr [fake.refTo cases.running])
    by (vm_compute; reflexivity).
  assert (Hpod : GetPodObject (derivedKey cases.running)
                   (cases.failing cases.createFails (scenario.alone "RUNNING" scenario.past))
                 = inl (errors.NewNotFound "demo-pod")) by (vm_compute; reflexivity).
  assert (Hnf : errors.IsNotFound (errors.NewNotFound "demo-pod") = true) by reflexivity.
  assert (Hcreate : fst (Create cases.ownedPod
                           (cases.failing cases.createFails
                              (scenario.alone "RUNNING" scenario.past)))
                    = Some cases.refused) by (vm_compute; reflexivity).
  destruct (create_failure_skips_status_update time.Parse fake.Registry
              fake.controllerReference fake.reconciler scenario.request scenario.now
              _ _ _ _ _ Hget Hp Href Hpod Hnf Hcreate)
    as (_ & Hfail & Htrace & _).
  do 6 (split; [assumption |]). split; [exact Hfail | exact Htrace].
Defined.

Lemma created_pod_is_followed_by_status_update_witness :
  GetAtObject scenario.key (scenario.alone "RUNNING" scenario.past) = inr cases.running
  /\ phaseOf cases.running = cnatv1alpha1.PhaseRunning
  /\ fake.controllerReference cases.running (newPodForCR cases.running)
       (Scheme fake.reconciler) = inr [fake.refTo cases.running]
  /\ GetPodObject (derivedKey cases.running) (scenario.alone "RUNNING" scenario.past)
     = inl (errors.NewNotFound "demo-pod")
  /\ errors.IsNotFound (errors.NewNotFound "demo-pod") = true
  /\ fst (Create cases.ownedPod (scenario.alone "RUNNING" scenario.past)) = None
  /\ trace (final (fake.Reconcile scenario.now scenario.request
                     (scenario.alone "RUNNING" scenario.past)))
     = [GetAt scenario.key; GetPod (derivedKey cases.running);
        CreatePod cases.ownedPod; StatusUpdate cases.running].
Proof.
  assert (Hget : GetAtObject scenario.key (scenario.alone "RUNNING" scenario.past)
                 = inr cases.running) by (vm_compute; reflexivity).
  assert (Hp : phaseOf cases.running = cnatv1alpha1.PhaseRunning) by reflexivity.
  assert (Href : fake.controllerReference cases.running (newPodForCR cases.running)
                   (Scheme fake.reconciler) = inr [fake.refTo cases.running])
    by (vm_compute; reflexivity).
  assert (Hpod : GetPodObject (derivedKey cases.running)
                   (scenario.alone "RUNNING" scenario.past)
                 = inl (errors.NewNotFound "demo-pod")) by (vm_compute; reflexivity).
  assert (Hnf : errors.IsNotFound (errors.NewNotFound "demo-pod") = true) by reflexivity.
  assert (Hcreate : fst (Create cases.ownedPod (scenario.alone "RUNNING" scenario.past))
                    = None) by (vm_compute; reflexivity).
  destruct (created_pod_is_followed_by_status_update time.Parse fake.Registry
              fake.controllerReference fake.reconciler scenario.request scenario.now
              _ _ _ _ Hget Hp Href Hpod Hnf Hcreate) as (Htrace & _).
  do 6 (split; [assumption |]). exact Htrace.
Defined.

Lemma status_write_touches_only_the_phase_witness :
  In (StatusUpdate (scenario.resource "RUNNING" scenario.past))
     (trace (final (fake.Reconcile scenario.now scenario.request
                      (scenario.alone "" scenario.past))))
  /\ exists cr,
       GetAtObject scenario.key (scenario.alone "" scenario.past) = inr cr
       /\ cnatv1alpha1.Spec (scenario.resource "RUNNING" scenario.past) = cnatv1alpha1.Spec cr
       /\ phaseOf cr = "".
Proof.
  assert (Hin : In (StatusUpdate (scenario.resource "RUNNING" scenario.past))
                   (trace (final (fake.Reconcile scenario.now scenario.request
                                    (scenario.alone "" scenario.past)))))
    by (vm_compute; auto).
  split; [exact Hin |].
  destruct (status_write_touches_only_the_phase time.Parse fake.Registry
              fake.controllerReference fake.reconciler scenario.request scenario.now
              _ _ Hin) as (cr & Hget & _ & Hspec & _).
  exists cr. split; [exact Hget |]. split; [exact Hspec |].
  assert (Hread : GetAtObject scenario.key (scenario.alone "" scenario.past)
                  = inr (scenario.resource "" scenario.past)) by (vm_compute; reflexivity).
  pose proof (eq_trans (eq_sym Hget) Hread) as Heq. injection Heq as ->. reflexivity.
Defined.

Lemma created_pod_is_the_derived_one_witness :
  In (CreatePod cases.ownedPod)
     (trace (final (fake.Reconcile scenario.now scenario.request
                      (scenario.alone "RUNNING" scenario.past))))
  /\ exists cr,
       GetAtObject scenario.key (scenario.alone "RUNNING" scenario.past) = inr cr
       /\ podKey cases.ownedPod = derivedKey cr
       /\ corev1.Spec cases.ownedPod = corev1.Spec (newPodForCR cr).
Proof.
  assert (Hin : In (CreatePod cases.ownedPod)
                   (trace (final (fake.Reconcile scenario.now scenario.request
                                    (scenario.alone "RUNNING" scenario.past)))))
    by (vm_compute; auto).
  split; [exact Hin |].
  destruct (created_pod_is_the_derived_one time.Parse fake.Registry
              fake.controllerReference fake.reconciler scenario.request scenario.now
              _ _ Hin) as (cr & refs & e & Hget & _ & _ & _ & Hspec & Hkey & _).
  exists cr. split; [exact Hget |]. split; [exact Hkey | exact Hspec].
Defined.


Lemma clock_and_schedule_matter_only_while_pending_witness :
  (forall cr,
     GetAtObject scenario.key (scenario.alone "RUNNING" scenario.malformed) = inr cr ->
     ~ awaiting cr)
  /\ Reconcile time.Parse fake.controllerReference fake.reconciler scenario.now
       scenario.request (scenario.alone "RUNNING" scenario.malformed)
     = Reconcile cases.noParser fake.controllerReference fake.reconciler
         (scenario.now + time.Minute)
         scenario.request (scenario.alone "RUNNING" scenario.malformed).
Proof.
  assert (Hnot : forall cr,
            GetAtObject scenario.key (scenario.alone "RUNNING" scenario.malformed) = inr cr ->
            ~ awaiting cr).
  { intros cr Hget.
    assert (Hread : GetAtObject scenario.key (scenario.alone "RUNNING" scenario.malformed)
                    = inr (scenario.resource "RUNNING" scenario.malformed))
      by (vm_compute; reflexivity).
    pose proof (eq_trans (eq_sym Hget) Hread) as Heq. injection Heq as ->.
    intros [Hp | Hp]; discriminate Hp. }
  split; [exact Hnot |].
  exact (clock_and_schedule_matter_only_while_pending time.Parse cases.noParser
           fake.controllerReference fake.reconciler scenario.request
           scenario.now (scenario.now + time.Minute) _ Hnot).
Defined.

Lemma follow_up_finds_schedule_due_witness :
  GetAtObject scenario.key (scenario.alone "" scenario.inFiveMinutes)
  = inr (scenario.resource "" scenario.inFiveMinutes)
  /\ awaiting (scenario.resource "" scenario.inFiveMinutes)
  /\ time.Parse layout scenario.inFiveMinutes = inr (time.Date 2026 11 3 0 5 0 0)
  /\ scenario.now < time.Date 2026 11 3 0 5 0 0
  /\ time.Date 2026 11 3 0 5 0 0 - scenario.now <= time.maxDuration
  /\ scenario.now
     + reconcile.RequeueAfter
         (result (fake.Reconcile scenario.now scenario.request
                    (scenario.alone "" scenario.inFiveMinutes)))
     <= scenario.now + 5 * time.Minute
  /\ trace (final (fake.Reconcile (scenario.now + 5 * time.Minute) scenario.request
                     (cluster (final (fake.Reconcile scenario.now scenario.request
                                        (scenario.alone "" scenario.inFiveMinutes))))))
     = [GetAt scenario.key; StatusUpdate (scenario.resource "RUNNING" scenario.inFiveMinutes)].
Proof.
  assert (Hget : GetAtObject scenario.key (scenario.alone "" scenario.inFiveMinutes)
                 = inr (scenario.resource "" scenario.inFiveMinutes))
    by (vm_compute; reflexivity).
  assert (Hp : awaiting (scenario.resource "" scenario.inFiveMinutes))
    by (left; reflexivity).
  assert (Hparse : time.Parse layout scenario.inFiveMinutes
                   = inr (time.Date 2026 11 3 0 5 0 0)) by (vm_compute; reflexivity).
  assert (Hlt : scenario.now < time.Date 2026 11 3 0 5 0 0) by (vm_compute; reflexivity).
  assert (Hfit : time.Date 2026 11 3 0 5 0 0 - scenario.now <= time.maxDuration)
    by (vm_compute; discriminate).
  assert (Hwake : scenario.now
                  + reconcile.RequeueAfter
                      (result (fake.Reconcile scenario.now scenario.request
                                 (scenario.alone "" scenario.inFiveMinutes)))
                  <= scenario.now + 5 * time.Minute) by (vm_compute; discriminate).
  destruct (follow_up_finds_schedule_due time.Parse fake.Registry fake.controllerReference
              fake.reconciler scenario.request scenario.now (scenario.now + 5 * time.Minute)
              _ _ _ Hget Hp Hparse Hlt Hfit Hwake) as [Htrace _].
  do 6 (split; [assumption |]). exact Htrace.
Defined.

(** Two containers whose restart counts add up to more than an [int32]
    holds: the total wraps around to a negative number; in either order. *)
Lemma getTotalRestarts_is_the_wrapped_sum_witness :
  main.getTotalRestarts (cases.statuses [maxInt32; 1]) = minInt32
  /\ (minInt32 <= sumZ (restartCounts (cases.statuses [3; 0; 4])) <= maxInt32)
  /\ main.getTotalRestarts (cases.statuses [3; 0; 4]) = 7.
Proof.
  destruct (getTotalRestarts_is_the_wrapped_sum (cases.statuses [maxInt32; 1]))
    as (Hwrap & _ & _).
  destruct (getTotalRestarts_is_the_wrapped_sum (cases.statuses [3; 0; 4]))
    as (_ & _ & Hexact).
  assert (Hfits : minInt32 <= sumZ (restartCounts (cases.statuses [3; 0; 4])) <= maxInt32)
    by (vm_compute; split; discriminate).
  split; [rewrite Hwrap; vm_compute; reflexivity |].
  split; [exact Hfits |]. rewrite (Hexact Hfits). vm_compute. reflexivity.
Defined.

Lemma getTotalRestarts_ignores_the_order_witness :
  Permutation (cases.statuses [maxInt32; 1; 5]) (cases.statuses [5; maxInt32; 1])
  /\ main.getTotalRestarts (cases.statuses [maxInt32; 1; 5])
     = main.getTotalRestarts (cases.statuses [5; maxInt32; 1]).
Proof.
  assert (Hperm : Permutation (cases.statuses [maxInt32; 1; 5])
                              (cases.statuses [5; maxInt32; 1])).
  { unfold cases.statuses. cbn [map].
    apply Permutation_sym, (Permutation_cons_app [_; _] []). cbn [app]. reflexivity. }
  split; [exact Hperm |].
  exact (proj1 (getTotalRestarts_ignores_the_order _ _) Hperm).
Defined.

